(** * The conversation orchestration of agent/api.py, embedded in Rocq

    The endpoints of [agent/api.py] are translated function by function.
    Everything the module imports from elsewhere (the conversation store of
    [db_utils], the reasoning agent [rag_agent], [json.loads], the clock, the
    uuid generator and the default search type of [models.ChatRequest]) is a
    field of one record of collaborators, so every statement below holds
    for every behaviour of those collaborators, failures included.

    Effects are explicit: an endpoint is a function from a world (the state
    of the store and the chronological trace of the calls made and of the
    records yielded to the transport) to a new world and either a value or a
    raised exception.  [logger.error] calls are part of the trace;
    [logger.info], [logger.debug], [logger.warning] and [print] are not
    represented. *)

From Stdlib Require Import List String Ascii ZArith Bool Lia PeanoNat.
From Stdlib Require Import DecimalString QArith OrdersEx.
From Stdlib Require Import Sorting.Sorted Sorting.Permutation.
Import ListNotations.
Close Scope Q_scope.
Open Scope string_scope.

(** ** Python values used by the module *)

(** The line feed of the f-strings. *)
Definition nl : string := String (ascii_of_nat 10) EmptyString.

(** [needle in haystack] on Python strings. *)
Fixpoint contains (needle haystack : string) : bool :=
  if String.prefix needle haystack then true
  else match haystack with
       | EmptyString => false
       | String _ rest => contains needle rest
       end.

(** [l[-n:]] for [n > 0]: the last [n] elements, the whole list when it is
    shorter. *)
Definition last_n {A : Type} (n : nat) (l : list A) : list A :=
  skipn (List.length l - n) l.

(** [l[-1]] on a list that may be empty. *)
Definition last_opt {A : Type} (l : list A) : option A :=
  match rev l with
  | [] => None
  | x :: _ => Some x
  end.

(** Decimal rendering of a status code inside an f-string. *)
Definition str_nat (n : nat) : string :=
  NilEmpty.string_of_uint (Nat.to_uint n).

(** The exceptions that travel through the module.  [HTTPException] is the
    FastAPI class (a subclass of [Exception]); every other exception is kept
    with its message. *)
Inductive PyExn : Type :=
| HTTPException (status_code : nat) (detail : string)
| Exception (message : string).

(** [str(e)].  For [HTTPException] this is Starlette's
    [f"{status_code}: {detail}"]. *)
Definition str (e : PyExn) : string :=
  match e with
  | HTTPException code detail => str_nat code ++ ": " ++ detail
  | Exception message => message
  end.

(** Scalar values stored in metadata dictionaries. *)
Inductive PyVal : Type :=
| VNone
| VBool (b : bool)
| VInt (n : Z)
| VStr (s : string).

(** A metadata dict, in insertion order. *)
Definition Metadata : Type := list (string * PyVal).

Definition opt_str (o : option string) : PyVal :=
  match o with
  | Some s => VStr s
  | None => VNone
  end.

(** Truthiness of an optional string: [None] and the empty string are
    falsy. *)
Definition truthy_str (o : option string) : option string :=
  match o with
  | Some EmptyString => None
  | other => other
  end.

(** Decoded JSON, the result of [json.loads] and of [args_as_dict]. *)
#[warnings="-register-all"]
Inductive Json : Type :=
| JNull
| JBool (b : bool)
| JNum (n : Z)
| JStr (s : string)
| JArr (items : list Json)
| JObj (fields : list (string * Json)).

(** ** Data model *)

(** Modelled from the spec: the [ToolCall] model of [agent/models.py], which
    is not among the sources.  The spec gives it a tool name, an argument
    mapping and an optional call identifier, the three fields that
    [extract_tool_calls] fills. *)
Record ToolCall : Type := {
  tool_name : string;
  args : list (string * Json);
  tool_call_id : option string
}.

(** Modelled from the spec: construction of a [ToolCall] from the dict that
    [extract_tool_calls] builds.  The arguments must be a mapping; anything
    else is refused by the model's validation, which raises. *)
Definition ToolCall_new (name : string) (tool_args : Json)
  (call_id : option string) : option ToolCall :=
  match tool_args with
  | JObj fields =>
      Some {| tool_name := name; args := fields; tool_call_id := call_id |}
  | _ => None
  end.

(** The [args] attribute of a trace part. *)
Inductive PartArgs : Type :=
| ArgsStr (s : string)
| ArgsDict (d : list (string * Json))
| ArgsOther.

(** A part of a message of the agent's trace, seen the way
    [extract_tool_calls] probes it: by class name and by attribute.  An
    absent attribute and an attribute holding [None] are both [None],
    except for [part_tool_name], which is [None] only when the attribute is
    absent and is otherwise the attribute's [str]. *)
Record Part : Type := {
  class_name : string;
  part_tool_name : option string;
  part_args : option PartArgs;
  part_args_as_dict : option (PyExn + Json);
  part_tool_call_id : option string
}.

(** A message of the trace; [parts] is [None] when the attribute is
    missing. *)
Record ModelMessage : Type := {
  parts : option (list Part)
}.

(** The result object of an agent run. *)
Record AgentRunResult : Type := {
  data : string;
  all_messages : PyExn + list ModelMessage
}.

Record AgentDependencies : Type := {
  deps_session_id : string;
  deps_user_id : option string
}.

(** Events of [node.stream(run.ctx)]. *)
Inductive PartDelta : Type :=
| TextPartDelta (content_delta : string)
| OtherPartDelta.

Inductive StreamItem : Type :=
| PartStartEvent (part_kind : string) (part_content : string)
| PartDeltaEvent (delta : PartDelta)
| OtherStreamEvent.

(** A node of [rag_agent.iter]: the events its stream produces and the
    exception, if any, that the stream raises after them. *)
Record Node : Type := {
  is_model_request_node : bool;
  node_events : list StreamItem;
  node_error : option PyExn
}.

(** One iteration of the agent: the nodes produced, the exception, if any,
    raised when the next node is requested, and [run.result]. *)
Record AgentRun : Type := {
  run_nodes : list Node;
  run_error : option PyExn;
  run_result : AgentRunResult
}.

(** A row returned by [get_session_messages]. *)
Record MessageRow : Type := {
  row_role : string;
  row_content : string;
  row_metadata : Metadata
}.

(** The [{role, content}] dicts of the conversation context. *)
Record Turn : Type := {
  turn_role : string;
  turn_content : string
}.

(** A session row; an empty dict is falsy. *)
Definition Session : Type := Metadata.

Record OpenAIMessage : Type := {
  role : string;
  content : string
}.

Record OpenAIChatRequest : Type := {
  model : string;
  messages : list OpenAIMessage;
  stream : bool;
  user : option string
}.

Record ChatRequest : Type := {
  message : string;
  session_id : option string;
  user_id : option string;
  metadata : Metadata;
  search_type : string
}.

Record ChatResponse : Type := {
  resp_message : string;
  resp_session_id : string;
  resp_tools_used : list ToolCall;
  resp_metadata : Metadata
}.

Record OpenAIDelta : Type := {
  delta_content : option string
}.

Record OpenAIChoice : Type := {
  index : nat;
  choice_message : option OpenAIMessage;
  choice_delta : option OpenAIDelta;
  finish_reason : option string
}.

(** The token usage estimate of [create_openai_response] is a floating
    point product and is left out of the response. *)
Record OpenAIChatResponse : Type := {
  id : string;
  object : string;
  created : Z;
  resp_model : string;
  choices : list OpenAIChoice
}.

(** The JSON payloads of the native stream, by their [type] key. *)
Inductive StreamEvent : Type :=
| SessionEvent (sid : string)
| TextEvent (text : string)
| ToolsEvent (tools : list ToolCall)
| EndEvent
| ErrorEvent (text : string).

(** One [data: ...] record handed to the transport. *)
Inductive WireRecord : Type :=
| Native (e : StreamEvent)
| Chunk (c : OpenAIChatResponse)
| Done.

(** ** Collaborators, worlds and effects *)

(** Every call into a collaborator takes the state of the outside world
    (the store, the agent's provider) and returns the state after the call
    together with a value or a raised exception.  No path of the module
    calls [uuid.uuid4()] or [time.time()] more than twice while it serves
    one request: [uuid4_hex8] and [time_time] are what the first calls
    give, [uuid4_hex8_next] and [time_time_next] what the second calls
    give. *)
Record Collaborators (Store : Type) : Type := {
  get_session : Store -> string -> Store * (PyExn + option Session);
  create_session :
    Store -> option string -> Metadata -> Store * (PyExn + string);
  add_message :
    Store -> string -> string -> string -> Metadata -> Store * (PyExn + unit);
  get_session_messages :
    Store -> string -> nat -> Store * (PyExn + list MessageRow);
  rag_agent_run :
    Store -> string -> AgentDependencies -> Store * (PyExn + AgentRunResult);
  rag_agent_iter :
    Store -> string -> AgentDependencies -> Store * (PyExn + AgentRun);
  json_loads : string -> option Json;
  uuid4_hex8 : string;
  time_time : Z;
  uuid4_hex8_next : string;
  time_time_next : Z;
  default_search_type : string
}.

Arguments get_session {Store}.
Arguments create_session {Store}.
Arguments add_message {Store}.
Arguments get_session_messages {Store}.
Arguments rag_agent_run {Store}.
Arguments rag_agent_iter {Store}.
Arguments json_loads {Store}.
Arguments uuid4_hex8 {Store}.
Arguments time_time {Store}.
Arguments uuid4_hex8_next {Store}.
Arguments time_time_next {Store}.
Arguments default_search_type {Store}.

(** What an endpoint does to the outside, in the order it does it. *)
Inductive Effect : Type :=
| GetSession (sid : string)
| CreateSession (owner : option string) (md : Metadata)
| AddMessage (sid msg_role msg_content : string) (md : Metadata)
| GetSessionMessages (sid : string) (limit : nat)
| AgentRunCall (prompt : string) (deps : AgentDependencies)
| AgentIterCall (prompt : string) (deps : AgentDependencies)
| LogError (text : string)
| Yield (r : WireRecord).

Record World (Store : Type) : Type := {
  store : Store;
  trace : list Effect
}.

Arguments store {Store}.
Arguments trace {Store}.

(** A computation that may raise. *)
Definition M (Store A : Type) : Type :=
  World Store -> World Store * (PyExn + A).

Definition ret {Store A : Type} (a : A) : M Store A :=
  fun w => (w, inr a).

Definition raise {Store A : Type} (e : PyExn) : M Store A :=
  fun w => (w, inl e).

Definition bind {Store A B : Type} (m : M Store A) (k : A -> M Store B)
  : M Store B :=
  fun w =>
    match m w with
    | (w', inr a) => k a w'
    | (w', inl e) => (w', inl e)
    end.

(** [try: body  except Exception as e: handler e]. *)
Definition try_except {Store A : Type} (body : M Store A)
  (handler : PyExn -> M Store A) : M Store A :=
  fun w =>
    match body w with
    | (w', inr a) => (w', inr a)
    | (w', inl e) => handler e w'
    end.

Definition lift {Store A : Type} (r : PyExn + A) : M Store A :=
  fun w => (w, r).

Declare Scope py_scope.
Delimit Scope py_scope with py.
Notation "x <- m ;; k" := (bind m (fun x => k))
  (at level 100, m at next level, right associativity) : py_scope.
Notation "m ;;; k" := (bind m (fun _ => k))
  (at level 100, right associativity) : py_scope.
Open Scope py_scope.

(** Appends one effect to the trace. *)
Definition emit {Store : Type} (e : Effect) : M Store unit :=
  fun w => ({| store := store w; trace := (trace w ++ [e])%list |}, inr tt).

(** A call into a collaborator: the call is recorded, then made. *)
Definition calling {Store A : Type} (e : Effect)
  (f : Store -> Store * (PyExn + A)) : M Store A :=
  fun w =>
    let (s', r) := f (store w) in
    ({| store := s'; trace := (trace w ++ [e])%list |}, r).

(** ** The functions of agent/api.py *)

(** [convert_openai_to_internal]: the content of the latest user-role
    message and the caller's user identifier. *)
Definition convert_openai_to_internal (openai_request : OpenAIChatRequest)
  : PyExn + (string * option string) :=
  let user_messages :=
    filter (fun msg => role msg =? "user") (messages openai_request) in
  match last_opt user_messages with
  | None => inl (HTTPException 400 "No user message found in request")
  | Some latest => inr (content latest, user openai_request)
  end.

(** [create_openai_response], without the usage estimate.  The response
    identifier and the timestamp come from the runtime. *)
Definition create_openai_response (response_id : string) (timestamp : Z)
  (text : string) (sid : string) (model_name : string) (is_stream : bool)
  : OpenAIChatResponse :=
  let choice :=
    if is_stream then
      {| index := 0; choice_message := None;
         choice_delta := Some {| delta_content := Some text |};
         finish_reason := None |}
    else
      {| index := 0;
         choice_message := Some {| role := "assistant"; content := text |};
         choice_delta := None;
         finish_reason := Some "stop" |} in
  {| id := response_id;
     object := if is_stream then "chat.completion.chunk"
               else "chat.completion";
     created := timestamp;
     resp_model := model_name;
     choices := [choice] |}.

(** The three places that build the working prompt (in [execute_agent] and
    in the two stream generators) run the same statements. *)
Definition render_turn (msg : Turn) : string :=
  turn_role msg ++ ": " ++ turn_content msg.

Definition build_full_prompt (question : string) (context : list Turn)
  : string :=
  match context with
  | [] => question
  | _ :: _ =>
      let context_str :=
        String.concat nl (map render_turn (last_n 6 context)) in
      "Previous conversation:" ++ nl ++ context_str ++ nl ++ nl
        ++ "Current question: " ++ question
  end.

(** The text carried by a stream event: the content of a text part that
    starts, or a text delta. *)
Definition text_of (event : StreamItem) : option string :=
  match event with
  | PartStartEvent kind text => if kind =? "text" then Some text else None
  | PartDeltaEvent (TextPartDelta text) => Some text
  | _ => None
  end.

(** The argument decoding of [extract_tool_calls]: a string is parsed, a
    parse failure leaves the empty dict; a dict is kept; [args_as_dict],
    when the part has it and it does not raise, overrides both. *)
Definition decode_args (loads : string -> option Json) (part : Part) : Json :=
  let tool_args :=
    match part_args part with
    | Some (ArgsStr s) =>
        match loads s with
        | Some v => v
        | None => JObj []
        end
    | Some (ArgsDict d) => JObj d
    | _ => JObj []
    end in
  match part_args_as_dict part with
  | Some (inr v) => v
  | _ => tool_args
  end.

(** One iteration of the inner loop of [extract_tool_calls]; [None] when
    the [ToolCall] could not be built and the part is skipped. *)
Definition tool_call_of_part (loads : string -> option Json) (part : Part)
  : option ToolCall :=
  let name :=
    match part_tool_name part with
    | Some n => n
    | None => "unknown"
    end in
  ToolCall_new name (decode_args loads part)
    (truthy_str (part_tool_call_id part)).

Definition is_tool_call_part (part : Part) : bool :=
  class_name part =? "ToolCallPart".

Definition tool_calls_of_parts (loads : string -> option Json)
  (ps : list Part) : list ToolCall :=
  flat_map
    (fun part =>
       if is_tool_call_part part then
         match tool_call_of_part loads part with
         | Some call => [call]
         | None => []
         end
       else [])
    ps.

(** [extract_tool_calls]: when [all_messages] raises, nothing has been
    collected yet and the empty list is returned. *)
Definition extract_tool_calls (loads : string -> option Json)
  (result : AgentRunResult) : list ToolCall :=
  match all_messages result with
  | inl _ => []
  | inr msgs =>
      flat_map
        (fun msg =>
           match parts msg with
           | Some ps => tool_calls_of_parts loads ps
           | None => []
           end)
        msgs
  end.

Section Endpoints.

Context {Store : Type} (C : Collaborators Store).

Abbreviation Run := (M Store).

Definition call_get_session (sid : string) : Run (option Session) :=
  calling (GetSession sid) (fun s => get_session C s sid).

Definition call_create_session (owner : option string) (md : Metadata)
  : Run string :=
  calling (CreateSession owner md) (fun s => create_session C s owner md).

Definition call_add_message (sid msg_role msg_content : string)
  (md : Metadata) : Run unit :=
  calling (AddMessage sid msg_role msg_content md)
    (fun s => add_message C s sid msg_role msg_content md).

Definition call_get_session_messages (sid : string) (limit : nat)
  : Run (list MessageRow) :=
  calling (GetSessionMessages sid limit)
    (fun s => get_session_messages C s sid limit).

Definition call_agent_run (prompt : string) (deps : AgentDependencies)
  : Run AgentRunResult :=
  calling (AgentRunCall prompt deps) (fun s => rag_agent_run C s prompt deps).

Definition call_agent_iter (prompt : string) (deps : AgentDependencies)
  : Run AgentRun :=
  calling (AgentIterCall prompt deps)
    (fun s => rag_agent_iter C s prompt deps).

Definition logger_error (text : string) : Run unit :=
  emit (LogError text).

Definition yield (r : WireRecord) : Run unit :=
  emit (Yield r).

(** [get_or_create_session] *)
Definition get_or_create_session (request : ChatRequest) : Run string :=
  let create :=
    call_create_session (user_id request) (metadata request) in
  match truthy_str (session_id request) with
  | Some sid =>
      session <- call_get_session sid ;;
      match session with
      | Some (_ :: _) => ret sid
      | _ => create
      end
  | None => create
  end.

(** [get_conversation_context] *)
Definition get_conversation_context (session_id : string) (max_messages : nat)
  : Run (list Turn) :=
  rows <- call_get_session_messages session_id max_messages ;;
  ret (map (fun msg => {| turn_role := row_role msg;
                          turn_content := row_content msg |}) rows).

(** [save_conversation_turn]; [metadata or {}] is the dict itself or the
    empty dict. *)
Definition save_conversation_turn
  (session_id user_message assistant_message : string)
  (metadata : option Metadata) : Run unit :=
  let metadata' := match metadata with Some d => d | None => [] end in
  call_add_message session_id "user" user_message metadata' ;;;
  call_add_message session_id "assistant" assistant_message metadata'.

(** The [try] block of [execute_agent]. *)
Definition execute_agent_try (message session_id : string)
  (user_id : option string) (save_conversation : bool)
  : Run (string * list ToolCall) :=
  let deps :=
    {| deps_session_id := session_id; deps_user_id := user_id |} in
  context <- get_conversation_context session_id 10 ;;
  let full_prompt := build_full_prompt message context in
  result <- call_agent_run full_prompt deps ;;
  let response := data result in
  let tools_used := extract_tool_calls (json_loads C) result in
  (if save_conversation then
     save_conversation_turn session_id message response
       (Some [("user_id", opt_str user_id);
              ("tool_calls", VInt (Z.of_nat (List.length tools_used)))])
   else ret tt) ;;;
  ret (response, tools_used).

(** The [except] clause of [execute_agent]. *)
Definition execute_agent_except (message session_id : string)
  (save_conversation : bool) (e : PyExn) : Run (string * list ToolCall) :=
  logger_error ("Agent execution failed: " ++ str e) ;;;
  let error_response :=
    "I encountered an error while processing your request: " ++ str e in
  (if save_conversation then
     save_conversation_turn session_id message error_response
       (Some [("error", VStr (str e))])
   else ret tt) ;;;
  ret (error_response, []).

(** [execute_agent] *)
Definition execute_agent (message session_id : string)
  (user_id : option string) (save_conversation : bool)
  : Run (string * list ToolCall) :=
  try_except
    (execute_agent_try message session_id user_id save_conversation)
    (execute_agent_except message session_id save_conversation).

(** The nested loops over [rag_agent.iter]: every text fragment of a model
    request node is handed to [on_text] and appended to the response. *)
Fixpoint stream_events (on_text : string -> Run unit)
  (events : list StreamItem) (full_response : string) : Run string :=
  match events with
  | [] => ret full_response
  | event :: rest =>
      match text_of event with
      | Some text =>
          on_text text ;;;
          stream_events on_text rest (full_response ++ text)
      | None => stream_events on_text rest full_response
      end
  end.

Definition stream_node (on_text : string -> Run unit) (node : Node)
  (full_response : string) : Run string :=
  if is_model_request_node node then
    full_response' <-
      stream_events on_text (node_events node) full_response ;;
    match node_error node with
    | Some e => raise e
    | None => ret full_response'
    end
  else ret full_response.

Fixpoint stream_nodes (on_text : string -> Run unit) (nodes : list Node)
  (full_response : string) : Run string :=
  match nodes with
  | [] => ret full_response
  | node :: rest =>
      full_response' <- stream_node on_text node full_response ;;
      stream_nodes on_text rest full_response'
  end.

Definition iterate_agent (on_text : string -> Run unit) (run : AgentRun)
  : Run string :=
  full_response <- stream_nodes on_text (run_nodes run) "" ;;
  match run_error run with
  | Some e => raise e
  | None => ret full_response
  end.

(** The [try] block of [generate_stream]. *)
Definition generate_stream_try (request : ChatRequest) (session_id : string)
  : Run unit :=
  yield (Native (SessionEvent session_id)) ;;;
  let deps :=
    {| deps_session_id := session_id; deps_user_id := user_id request |} in
  context <- get_conversation_context session_id 10 ;;
  let full_prompt := build_full_prompt (message request) context in
  call_add_message session_id "user" (message request)
    [("user_id", opt_str (user_id request))] ;;;
  run <- call_agent_iter full_prompt deps ;;
  full_response <-
    iterate_agent (fun text => yield (Native (TextEvent text))) run ;;
  let tools_used := extract_tool_calls (json_loads C) (run_result run) in
  match tools_used with
  | [] => ret tt
  | _ :: _ => yield (Native (ToolsEvent tools_used))
  end ;;;
  call_add_message session_id "assistant" full_response
    [("streamed", VBool true);
     ("tool_calls", VInt (Z.of_nat (List.length tools_used)))] ;;;
  yield (Native EndEvent).

(** [generate_stream], the generator behind [/chat/stream]. *)
Definition generate_stream (request : ChatRequest) (session_id : string)
  : Run unit :=
  try_except (generate_stream_try request session_id)
    (fun e =>
       logger_error ("Stream error: " ++ str e) ;;;
       yield (Native (ErrorEvent ("Stream error: " ++ str e)))).

(** [chat], the non-streaming native endpoint. *)
Definition chat (request : ChatRequest) : Run ChatResponse :=
  try_except
    (session_id <- get_or_create_session request ;;
     answer <-
       execute_agent (message request) session_id (user_id request) true ;;
     ret {| resp_message := fst answer;
            resp_session_id := session_id;
            resp_tools_used := snd answer;
            resp_metadata := [("search_type", VStr (search_type request))] |})
    (fun e =>
       logger_error ("Chat endpoint failed: " ++ str e) ;;;
       raise (HTTPException 500 (str e))).

(** [chat_stream], the streaming native endpoint: the session is resolved
    by the handler, the generator runs as the response body. *)
Definition chat_stream (request : ChatRequest) : Run unit :=
  session_id <-
    try_except (get_or_create_session request)
      (fun e =>
         logger_error ("Streaming chat failed: " ++ str e) ;;;
         raise (HTTPException 500 (str e))) ;;
  generate_stream request session_id.

(** The chunk objects of the compatibility stream. *)
Definition openai_chunk (response_id : string) (timestamp : Z)
  (model_name : string) (delta : OpenAIDelta) (finish : option string)
  : OpenAIChatResponse :=
  {| id := response_id;
     object := "chat.completion.chunk";
     created := timestamp;
     resp_model := model_name;
     choices := [{| index := 0; choice_message := None;
                    choice_delta := Some delta;
                    finish_reason := finish |}] |}.

Definition fresh_response_id : string := "chatcmpl-" ++ uuid4_hex8 C.

(** The identifier that the [except] clause of [generate_openai_stream]
    draws for its chunk, after the one drawn when the stream began. *)
Definition error_response_id : string := "chatcmpl-" ++ uuid4_hex8_next C.

(** The body of the event loop of [generate_openai_stream]: a chunk is
    yielded for non-empty text only. *)
Definition openai_text (request : OpenAIChatRequest) (response_id : string)
  (timestamp : Z) (text : string) : Run unit :=
  match text with
  | EmptyString => ret tt
  | _ =>
      yield (Chunk (openai_chunk response_id timestamp (model request)
                      {| delta_content := Some text |} None))
  end.

(** The [try] block of [generate_openai_stream]. *)
Definition generate_openai_stream_try (request : OpenAIChatRequest)
  (user_message : string) (user_id : option string) (session_id : string)
  : Run unit :=
  let response_id := fresh_response_id in
  let timestamp := time_time C in
  let deps :=
    {| deps_session_id := session_id; deps_user_id := user_id |} in
  context <- get_conversation_context session_id 10 ;;
  let full_prompt := build_full_prompt user_message context in
  call_add_message session_id "user" user_message
    [("user_id", opt_str user_id)] ;;;
  run <- call_agent_iter full_prompt deps ;;
  full_response <-
    iterate_agent (openai_text request response_id timestamp) run ;;
  call_add_message session_id "assistant" full_response
    [("streamed", VBool true)] ;;;
  yield (Chunk (openai_chunk response_id timestamp (model request)
                  {| delta_content := None |} (Some "stop"))) ;;;
  yield Done.

(** [generate_openai_stream], the generator behind the streaming branch of
    [/v1/chat/completions].  The chunk of the [except] clause has an
    identifier and a timestamp of its own, read when the clause runs. *)
Definition generate_openai_stream (request : OpenAIChatRequest)
  (user_message : string) (user_id : option string) (session_id : string)
  : Run unit :=
  try_except
    (generate_openai_stream_try request user_message user_id session_id)
    (fun e =>
       logger_error ("OpenAI streaming error: " ++ str e) ;;;
       yield (Chunk (openai_chunk error_response_id (time_time_next C)
                       (model request)
                       {| delta_content := Some ("Error: " ++ str e) |}
                       (Some "stop"))) ;;;
       yield Done).

(** The fixed message of the quota branch of [chat_completions]. *)
Definition cooldown_apology : string :=
  "I'm currently experiencing high demand and cannot process your request. Please try again in a few minutes, or contact the administrator about API quota limits.".

(** The [except Exception as e] clause that closes [chat_completions].
    [bound_session] is the value of [session_id] when the name is already
    bound ([session_id if 'session_id' in locals() else "error-session"]). *)
Definition completions_except (request : OpenAIChatRequest)
  (bound_session : option string) (e : PyExn) : Run OpenAIChatResponse :=
  logger_error ("Chat completions endpoint failed: " ++ str e) ;;;
  let error_message := str e in
  if contains "insufficient_quota" error_message
     || contains "429" error_message
  then
    ret (create_openai_response fresh_response_id (time_time C)
           cooldown_apology
           (match bound_session with
            | Some session_id => session_id
            | None => "error-session"
            end)
           (model request) false)
  else raise (HTTPException 500 (str e)).

(** What the handler of [/v1/chat/completions] hands back: a JSON body, or
    a streaming response whose records are in the trace. *)
Inductive CompletionResult : Type :=
| Completed (response : OpenAIChatResponse)
| Streamed.

(** The first statements of the [try] block of [chat_completions], up to
    the binding of [session_id]. *)
Definition completions_session (request : OpenAIChatRequest)
  : Run (string * option string * string) :=
  converted <- lift (convert_openai_to_internal request) ;;
  let internal_request :=
    {| message := fst converted;
       session_id := None;
       user_id := snd converted;
       metadata := [("openai_format", VBool true);
                    ("model", VStr (model request))];
       search_type := default_search_type C |} in
  sid <- get_or_create_session internal_request ;;
  ret (fst converted, snd converted, sid).

(** The rest of the [try] block: the JSON response of the non-streaming
    branch, or [None] when the generator is handed to the transport. *)
Definition completions_answer (request : OpenAIChatRequest)
  (user_message : string) (user_id : option string) (session_id : string)
  : Run (option OpenAIChatResponse) :=
  session_check <- call_get_session session_id ;;
  match session_check with
  | Some (_ :: _) => ret tt
  | _ =>
      logger_error ("Session " ++ session_id
                    ++ " was not found in database after creation!")
  end ;;;
  if negb (stream request) then
    answer <-
      try_except (execute_agent user_message session_id user_id true)
        (fun agent_error =>
           logger_error ("Agent execution failed: " ++ str agent_error) ;;;
           ret ("I'm experiencing technical difficulties: "
                ++ str agent_error, [])) ;;
    ret (Some (create_openai_response fresh_response_id (time_time C)
                 (fst answer) session_id (model request) false))
  else ret None.

(** [chat_completions] *)
Definition chat_completions (request : OpenAIChatRequest)
  : Run CompletionResult :=
  fun w =>
    match completions_session request w with
    | (w1, inl e) =>
        (response <- completions_except request None e ;;
         ret (Completed response)) w1
    | (w1, inr (user_message, user_id, session_id)) =>
        (handled <-
           try_except
             (completions_answer request user_message user_id session_id)
             (fun e =>
                response <- completions_except request (Some session_id) e ;;
                ret (Some response)) ;;
         match handled with
         | Some response => ret (Completed response)
         | None =>
             generate_openai_stream request user_message user_id session_id ;;;
             ret Streamed
         end) w1
    end.

(** What [chat_completions] does once [session_id] is bound: the rest of
    its [try] block under its [except] clause, then the generator when the
    request streams. *)
Definition completions_from_session (request : OpenAIChatRequest)
  (user_message : string) (user_id : option string) (session_id : string)
  : Run CompletionResult :=
  handled <-
    try_except
      (completions_answer request user_message user_id session_id)
      (fun e =>
         response <- completions_except request (Some session_id) e ;;
         ret (Some response)) ;;
  match handled with
  | Some response => ret (Completed response)
  | None =>
      generate_openai_stream request user_message user_id session_id ;;;
      ret Streamed
  end.

End Endpoints.

(** ** Retrieval fusion *)

Module RetrievalFuser.

(** Modelled from the spec: the fuser is not among the sources (it stands
    behind [hybrid_search_tool] of [agent/tools.py], which [api.py] only
    calls).  The data model is that of section 3, the algorithm that of
    section 4.2. *)
Inductive Source : Type := Vector | Graph.

(** Modelled from the spec: a [RetrievalHit] of section 3. *)
Record RetrievalHit : Type := {
  source : Source;
  identifier : string;
  score : Q;
  snippet : string;
  provenance : string
}.

(** Modelled from the spec: an entry of a [FusedResult] of section 3; the
    dedup key is the identifier. *)
Record FusedEntry : Type := {
  entry_source : Source;
  dedup_key : string;
  combined_score : Q;
  entry_snippet : string;
  entry_provenance : string;
  confidence : Q
}.

Definition Qmin_list (first : Q) (rest : list Q) : Q :=
  fold_left (fun lo x => if Qle_bool x lo then x else lo) rest first.

Definition Qmax_list (first : Q) (rest : list Q) : Q :=
  fold_left (fun hi x => if Qle_bool hi x then x else hi) rest first.

(** Modelled from the spec: step 1 of the fuser of section 4.2, min-max
    normalisation of one source's scores to [0,1].  A source with a single
    hit is fixed at 1; the same value is used whenever all the scores of the
    source coincide, where min-max has no quotient.  The scores, floating
    point numbers in the tools that are not among the sources, are
    rationals here. *)
Definition normalize (hits : list RetrievalHit) (hit : RetrievalHit) : Q :=
  match map score hits with
  | [] => 1%Q
  | first :: rest =>
      let lo := Qmin_list first rest in
      let hi := Qmax_list first rest in
      if Qeq_bool lo hi then 1%Q
      else ((score hit - lo) / (hi - lo))%Q
  end.

Definition find_hit (key : string) (hits : list RetrievalHit)
  : option RetrievalHit :=
  find (fun h => identifier h =? key) hits.

Definition has_hit (key : string) (hits : list RetrievalHit) : bool :=
  existsb (fun h => identifier h =? key) hits.

(** Modelled from the spec: deduplication by identifier inside one source
    (step 3), keeping the first hit of every identifier in the order of
    the list. *)
Fixpoint first_hits (seen : list string) (hits : list RetrievalHit)
  : list RetrievalHit :=
  match hits with
  | [] => []
  | h :: rest =>
      if existsb (String.eqb (identifier h)) seen then first_hits seen rest
      else h :: first_hits (identifier h :: seen) rest
  end.

(** Modelled from the spec: steps 2 and 3 of the fuser.  An identifier found
    by both sources gets the weighted sum of its two normalised scores, the
    graph hit's provenance, the vector hit's snippet and the sum of the two
    confidences; an identifier found by one source keeps that source's
    normalised score.  An entry counts as a graph entry as soon as the graph
    source found it. *)
Definition graph_entry (w_v w_g : Q) (vector graph : list RetrievalHit)
  (g : RetrievalHit) : FusedEntry :=
  match find_hit (identifier g) vector with
  | Some v =>
      {| entry_source := Graph;
         dedup_key := identifier g;
         combined_score :=
           (w_v * normalize vector v + w_g * normalize graph g)%Q;
         entry_snippet := snippet v;
         entry_provenance := provenance g;
         confidence := (normalize vector v + normalize graph g)%Q |}
  | None =>
      {| entry_source := Graph;
         dedup_key := identifier g;
         combined_score := normalize graph g;
         entry_snippet := snippet g;
         entry_provenance := provenance g;
         confidence := normalize graph g |}
  end.

(** Modelled from the spec: the entry of an identifier that only the
    vector source found (step 2). *)
Definition vector_entry (vector : list RetrievalHit) (v : RetrievalHit)
  : FusedEntry :=
  {| entry_source := Vector;
     dedup_key := identifier v;
     combined_score := normalize vector v;
     entry_snippet := snippet v;
     entry_provenance := provenance v;
     confidence := normalize vector v |}.

(** Modelled from the spec: the deduplicated entries before the sort, one
    per identifier (steps 1 to 3). *)
Definition fused_entries (w_v w_g : Q) (vector graph : list RetrievalHit)
  : list FusedEntry :=
  (map (graph_entry w_v w_g vector graph) (first_hits [] graph)
   ++ map (vector_entry vector)
        (filter (fun v => negb (has_hit (identifier v) graph))
           (first_hits [] vector)))%list.

(** Modelled from the spec: the source priority of step 4, graph before
    vector. *)
Definition priority (s : Source) : nat :=
  match s with
  | Graph => 0
  | Vector => 1
  end.

(** Modelled from the spec: the lexical order of identifiers of step 4. *)
Definition id_leb (a b : string) : bool :=
  match String_as_OT.compare a b with
  | Gt => false
  | _ => true
  end.

(** Modelled from the spec: the tie-break of step 4. *)
Definition tie_leb (a b : FusedEntry) : bool :=
  (priority (entry_source a) <? priority (entry_source b))%nat
  || ((priority (entry_source a) =? priority (entry_source b))%nat
      && id_leb (dedup_key a) (dedup_key b)).

(** Modelled from the spec: the order of step 4, descending combined
    score, then the tie-break; [rank_leb a b] when [a] may stand before
    [b]. *)
Definition rank_leb (a b : FusedEntry) : bool :=
  match (combined_score a ?= combined_score b)%Q with
  | Gt => true
  | Lt => false
  | Eq => tie_leb a b
  end.

(** Modelled from the spec: the sort of step 4, by insertion. *)
Fixpoint insert_entry (e : FusedEntry) (sorted : list FusedEntry)
  : list FusedEntry :=
  match sorted with
  | [] => [e]
  | x :: rest =>
      if rank_leb e x then e :: sorted else x :: insert_entry e rest
  end.

Definition sort_entries (l : list FusedEntry) : list FusedEntry :=
  fold_right insert_entry [] l.

(** Modelled from the spec: the fuser of section 4.2, which the hybrid
    search tool of [agent/tools.py] (not among the sources) stands for:
    normalise, combine, deduplicate, sort (step 4), truncate to the limit
    (step 5). *)
Definition fuse (w_v w_g : Q) (vector graph : list RetrievalHit)
  (limit : nat) : list FusedEntry :=
  firstn limit (sort_entries (fused_entries w_v w_g vector graph)).

(** What the claim asks of two entries, the first standing before the
    second: the score does not increase, and on equal scores the graph
    entry comes first, then the smaller identifier. *)
Definition ranked_before (a b : FusedEntry) : Prop :=
  (combined_score b <= combined_score a)%Q
  /\ ((combined_score a == combined_score b)%Q ->
      (priority (entry_source a) < priority (entry_source b))%nat
      \/ (priority (entry_source a) = priority (entry_source b)
          /\ String_as_OT.compare (dedup_key a) (dedup_key b) <> Gt)).

(** [a] may stand before [b], as the sort decides it. *)
Definition leb_rel (a b : FusedEntry) : Prop := rank_leb a b = true.

(** The scenario of the spec. *)
Definition hit (s : Source) (key : string) (x : Q) : RetrievalHit :=
  {| source := s; identifier := key; score := x;
     snippet := ""; provenance := "" |}.

Definition scenario_vector : list RetrievalHit :=
  [hit Vector "A" (9 # 10); hit Vector "B" (4 # 10)].

Definition scenario_graph : list RetrievalHit :=
  [hit Graph "A" (8 # 10); hit Graph "C" (95 # 100)].

End RetrievalFuser.

(** ** The remaining endpoints of agent/api.py *)

(** The body of [/health]. *)
Record HealthStatus : Type := {
  status : string;
  database : bool;
  graph_database : bool;
  llm_connection : bool;
  version : string;
  timestamp : Z
}.

(** The connection management of [db_utils] and [graph_utils] and the wall
    clock, which [lifespan] and [health_check] call.  Like the other
    collaborators, every call takes the state of the outside and may
    raise. *)
Record Infrastructure (Store : Type) : Type := {
  initialize_database : Store -> Store * (PyExn + unit);
  initialize_graph : Store -> Store * (PyExn + unit);
  close_database : Store -> Store * (PyExn + unit);
  close_graph : Store -> Store * (PyExn + unit);
  test_connection : Store -> Store * (PyExn + bool);
  test_graph_connection : Store -> Store * (PyExn + bool);
  datetime_now : Z
}.

Arguments initialize_database {Store}.
Arguments initialize_graph {Store}.
Arguments close_database {Store}.
Arguments close_graph {Store}.
Arguments test_connection {Store}.
Arguments test_graph_connection {Store}.
Arguments datetime_now {Store}.

(** A call into the infrastructure: it changes the state of the outside
    and leaves the trace alone. *)
Definition performing {Store A : Type} (f : Store -> Store * (PyExn + A))
  : M Store A :=
  fun w =>
    let (s', r) := f (store w) in
    ({| store := s'; trace := trace w |}, r).

Section Operations.

Context {Store : Type} (C : Collaborators Store) (I : Infrastructure Store).

(** The start-up half of [lifespan], up to its [yield]. *)
Definition lifespan_startup : M Store unit :=
  try_except
    (performing (initialize_database I) ;;;
     performing (initialize_graph I) ;;;
     db_ok <- performing (test_connection I) ;;
     graph_ok <- performing (test_graph_connection I) ;;
     (if negb db_ok then logger_error "Database connection failed"
      else ret tt) ;;;
     (if negb graph_ok then logger_error "Graph database connection failed"
      else ret tt))
    (fun e =>
       logger_error ("Startup failed: " ++ str e) ;;;
       raise e).

(** The shut-down half of [lifespan], after its [yield]. *)
Definition lifespan_shutdown : M Store unit :=
  try_except
    (performing (close_database I) ;;;
     performing (close_graph I))
    (fun e => logger_error ("Shutdown error: " ++ str e)).

(** [health_check] *)
Definition health_check : M Store HealthStatus :=
  try_except
    (db_status <- performing (test_connection I) ;;
     graph_status <- performing (test_graph_connection I) ;;
     let overall :=
       if db_status && graph_status then "healthy"
       else if db_status || graph_status then "degraded"
       else "unhealthy" in
     ret {| status := overall;
            database := db_status;
            graph_database := graph_status;
            llm_connection := true;
            version := "0.1.0";
            timestamp := datetime_now I |})
    (fun e =>
       logger_error ("Health check failed: " ++ str e) ;;;
       raise (HTTPException 500 "Health check failed")).

(** [get_session_info]: an [HTTPException] raised in the [try] block is
    raised again as it is, any other exception becomes a 500. *)
Definition get_session_info (session_id : string) : M Store Session :=
  fun w =>
    match (session <- call_get_session C session_id ;;
           match session with
           | Some (field :: fields) => ret (field :: fields)
           | _ => raise (HTTPException 404 "Session not found")
           end) w with
    | (w', inr session) => (w', inr session)
    | (w', inl (HTTPException code detail)) =>
        (w', inl (HTTPException code detail))
    | (w', inl e) =>
        (logger_error ("Session retrieval failed: " ++ str e) ;;;
         raise (HTTPException 500 (str e))) w'
    end.

End Operations.

(** ** Observations on traces *)

(** The records handed to the transport, in order. *)
Definition yielded (t : list Effect) : list WireRecord :=
  flat_map (fun e => match e with Yield r => [r] | _ => [] end) t.

(** The terminal events of the native stream. *)
Definition is_terminal (r : WireRecord) : bool :=
  match r with
  | Native EndEvent => true
  | Native (ErrorEvent _) => true
  | _ => false
  end.

(** An effect that is not the emission of a terminal event. *)
Definition not_terminal (e : Effect) : Prop :=
  match e with
  | Yield r => is_terminal r = false
  | _ => True
  end.

(** The calls to [add_message], in order. *)
Definition writes (t : list Effect) : list Effect :=
  filter (fun e => match e with AddMessage _ _ _ _ => true | _ => false end) t.

(** The contents of the [text] events of a native stream. *)
Definition text_deltas (records : list WireRecord) : list string :=
  flat_map
    (fun r => match r with Native (TextEvent text) => [text] | _ => [] end)
    records.

(** Concatenation of text fragments. *)
Definition concat_all (fragments : list string) : string :=
  fold_right String.append "" fragments.

(** The text fragments an agent iteration streams when nothing raises:
    those of its model request nodes, in order. *)
Definition texts_of_events (events : list StreamItem) : list string :=
  flat_map
    (fun event => match text_of event with Some t => [t] | None => [] end)
    events.

Definition texts_of_nodes (nodes : list Node) : list string :=
  flat_map
    (fun node =>
       if is_model_request_node node then texts_of_events (node_events node)
       else [])
    nodes.

Definition streamed_texts (run : AgentRun) : list string :=
  texts_of_nodes (run_nodes run).

Definition text_record (text : string) : Effect :=
  Yield (Native (TextEvent text)).

(** The records of the compatibility stream for one text fragment. *)
Definition chunk_records (response_id : string) (timestamp : Z)
  (model_name : string) (text : string) : list Effect :=
  match text with
  | EmptyString => []
  | _ =>
      [Yield (Chunk (openai_chunk response_id timestamp model_name
                       {| delta_content := Some text |} None))]
  end.

(** The delta contents of the chunks of a compatibility stream. *)
Definition chunk_deltas (records : list WireRecord) : list string :=
  flat_map
    (fun r =>
       match r with
       | Chunk c =>
           flat_map
             (fun choice =>
                match choice_delta choice with
                | Some {| delta_content := Some text |} => [text]
                | _ => []
                end)
             (choices c)
       | _ => []
       end)
    records.

(** The [tools] record of the native stream, present when tools were
    used. *)
Definition tools_records (tools : list ToolCall) : list Effect :=
  match tools with
  | [] => []
  | _ :: _ => [Yield (Native (ToolsEvent tools))]
  end.

(** The effects of a run that took the world from [w] to [w']. *)
Definition since {Store : Type} (w w' : World Store) : list Effect :=
  skipn (List.length (trace w)) (trace w').

(** A deterministic reasoning stub: what its two entry points answer to a
    prompt does not depend on the state of the outside. *)
Definition deterministic_stub {Store : Type} (C : Collaborators Store)
  : Prop :=
  forall (s s' : Store) (prompt : string) (deps : AgentDependencies),
    snd (rag_agent_run C s prompt deps) = snd (rag_agent_run C s' prompt deps)
    /\ snd (rag_agent_iter C s prompt deps)
       = snd (rag_agent_iter C s' prompt deps).

(** The predicate that every effect satisfies. *)
Definition any_effect (e : Effect) : Prop := True.



(** The session an effect refers to, if any. *)
Definition effect_session (e : Effect) : option string :=
  match e with
  | GetSession sid => Some sid
  | AddMessage sid _ _ _ => Some sid
  | GetSessionMessages sid _ => Some sid
  | AgentRunCall _ deps => Some (deps_session_id deps)
  | AgentIterCall _ deps => Some (deps_session_id deps)
  | _ => None
  end.

(** An effect that touches no session other than [sid] and creates none. *)
Definition within_session (sid : string) (e : Effect) : Prop :=
  match e with
  | CreateSession _ _ => False
  | _ => effect_session e = None \/ effect_session e = Some sid
  end.

(** An effect that neither looks up nor creates a session nor touches its
    messages. *)
Definition touches_no_session (e : Effect) : Prop :=
  match e with
  | CreateSession _ _ => False
  | _ => effect_session e = None
  end.

(** The prompt as the spec words it: the header, every message of the
    assembler's output as a [role: content] line, the question under its
    label. *)
Definition claimed_full_prompt (question : string) (context : list Turn)
  : string :=
  "Previous conversation:" ++ nl
    ++ String.concat nl (map render_turn context) ++ nl ++ nl
    ++ "Current question: " ++ question.

Definition turns_of (rows : list MessageRow) : list Turn :=
  map (fun msg => {| turn_role := row_role msg;
                     turn_content := row_content msg |}) rows.

(** Whether a compatibility request carries a user-role message. *)
Definition has_user_message (request : OpenAIChatRequest) : bool :=
  existsb (fun msg => role msg =? "user") (messages request).

(** The tool call parts of a trace, in invocation order. *)
Definition tool_call_parts (msgs : list ModelMessage) : list Part :=
  flat_map
    (fun msg =>
       match parts msg with
       | Some ps => filter is_tool_call_part ps
       | None => []
       end)
    msgs.

(** The arguments of a part fail to decode: they are text that
    [json.loads] rejects, and [args_as_dict] is missing or raises. *)
Definition decode_fails (loads : string -> option Json) (part : Part)
  : Prop :=
  (exists s, part_args part = Some (ArgsStr s) /\ loads s = None)
  /\ (part_args_as_dict part = None
      \/ exists e, part_args_as_dict part = Some (inl e)).

(** The arguments of a part decode to a mapping or fail to decode. *)
Definition decodes_to_mapping (loads : string -> option Json) (part : Part)
  : Prop :=
  exists fields, decode_args loads part = JObj fields.

Definition part_name (part : Part) : string :=
  match part_tool_name part with
  | Some n => n
  | None => "unknown"
  end.

(** What a record owes to the tool call part it was built from: the name,
    the identifier, the decoded arguments, which are empty when the
    decoding failed. *)
Definition records (loads : string -> option Json) (part : Part)
  (call : ToolCall) : Prop :=
  tool_name call = part_name part
  /\ tool_call_id call = truthy_str (part_tool_call_id part)
  /\ decode_args loads part = JObj (args call)
  /\ (decode_fails loads part -> args call = []).

(** Every effect that [m] adds to the trace satisfies [P]. *)
Definition adds {Store : Type} (P : Effect -> Prop) {A : Type}
  (m : M Store A) : Prop :=
  forall w, exists new,
    trace (fst (m w)) = (trace w ++ new)%list /\ Forall P new.

(** [m] adds effects that satisfy [P], followed by [final] exactly when it
    returns normally. *)
Definition finishes {Store : Type} (P : Effect -> Prop) (final : Effect)
  (m : M Store unit) : Prop :=
  forall w, exists new,
    Forall P new
    /\ match snd (m w) with
       | inr _ => trace (fst (m w)) = (trace w ++ new ++ [final])%list
       | inl _ => trace (fst (m w)) = (trace w ++ new)%list
       end.

(** ** Further observations *)

(** [needle] occurs in [haystack]. *)
Definition occurs_in (needle haystack : string) : Prop :=
  exists before after, haystack = before ++ needle ++ after.

(** The text of an error is one that the quota branch of
    [chat_completions] recognises. *)
Definition mentions_quota (e : PyExn) : Prop :=
  occurs_in "insufficient_quota" (str e) \/ occurs_in "429" (str e).

(** An effect that is not a call to [add_message]. *)
Definition not_a_write (e : Effect) : Prop :=
  match e with
  | AddMessage _ _ _ _ => False
  | _ => True
  end.

(** An effect that hands nothing to the transport. *)
Definition not_a_yield (e : Effect) : Prop :=
  match e with
  | Yield _ => False
  | _ => True
  end.

(** A chunk of the compatibility stream that carries text: no finish
    reason, and a delta whose content is not empty. *)
Definition is_delta_chunk (r : WireRecord) : bool :=
  match r with
  | Chunk c =>
      forallb
        (fun choice =>
           match finish_reason choice, choice_delta choice with
           | None, Some {| delta_content := Some (String _ _) |} => true
           | _, _ => false
           end)
        (choices c)
  | _ => false
  end.

(** An effect that is not a record, or is a chunk that carries text. *)
Definition delta_or_silent (e : Effect) : Prop :=
  match e with
  | Yield r => is_delta_chunk r = true
  | _ => True
  end.

(** [m] adds effects that satisfy [P], followed by the effects [closing]
    when it returns normally and by nothing when it raises. *)
Definition closes {Store : Type} (P : Effect -> Prop)
  (closing : list Effect) (m : M Store unit) : Prop :=
  forall w, exists new,
    Forall P new
    /\ match snd (m w) with
       | inr _ => trace (fst (m w)) = (trace w ++ new ++ closing)%list
       | inl _ => trace (fst (m w)) = (trace w ++ new)%list
       end.

(** What an iteration of the agent delivers: the text fragments streamed
    until the first exception, and that exception if there is one. *)
Fixpoint outcome_of_nodes (nodes : list Node) : list string * option PyExn :=
  match nodes with
  | [] => ([], None)
  | node :: rest =>
      if is_model_request_node node then
        match node_error node with
        | Some e => (texts_of_events (node_events node), Some e)
        | None =>
            let (texts, failure) := outcome_of_nodes rest in
            ((texts_of_events (node_events node) ++ texts)%list, failure)
        end
      else outcome_of_nodes rest
  end.

Definition iteration_outcome (run : AgentRun) : list string * option PyExn :=
  let (texts, failure) := outcome_of_nodes (run_nodes run) in
  (texts,
   match failure with
   | Some e => Some e
   | None => run_error run
   end).

(** The records of a native stream that completes. *)
Definition native_records (session_id : string) (texts : list string)
  (tools : list ToolCall) : list WireRecord :=
  (Native (SessionEvent session_id)
     :: map (fun text => Native (TextEvent text)) texts
     ++ match tools with
        | [] => []
        | _ :: _ => [Native (ToolsEvent tools)]
        end
     ++ [Native EndEvent])%list.

(** The metadata [execute_agent] stores with a turn. *)
Definition turn_metadata (user_id : option string) (tools : list ToolCall)
  : Metadata :=
  [("user_id", opt_str user_id);
   ("tool_calls", VInt (Z.of_nat (List.length tools)))].

(** The tool calls [extract_tool_calls] keeps: those whose arguments decode
    to a mapping. *)
Definition kept_parts (loads : string -> option Json)
  (msgs : list ModelMessage) : list Part :=
  filter
    (fun part =>
       match decode_args loads part with
       | JObj _ => true
       | _ => false
       end)
    (tool_call_parts msgs).

(** ** Scripted collaborators

    Collaborators whose answers are fixed in advance, used to run the
    endpoints on concrete inputs.  The state of the outside world is the
    number of writes attempted so far, so that a script can make a given
    write fail. *)

Module Script.

Record Script : Type := {
  rows : list MessageRow;
  run_outcome : PyExn + AgentRunResult;
  iter_outcome : PyExn + AgentRun;
  write_fault : nat -> option PyExn
}.

Definition dq : string := String (ascii_of_nat 34) EmptyString.

(** The text [{"query": "tesla"}]. *)
Definition tesla_args : string :=
  "{" ++ dq ++ "query" ++ dq ++ ": " ++ dq ++ "tesla" ++ dq ++ "}".

(** A decoder that agrees with [json.loads] on the texts used below: the
    empty object, [tesla_args], and text that is not JSON. *)
Definition loads (s : string) : option Json :=
  if s =? "{}" then Some (JObj [])
  else if s =? tesla_args then Some (JObj [("query", JStr "tesla")])
  else None.

Definition collaborators (sc : Script) : Collaborators nat :=
  {| get_session := fun n sid => (n, inr (Some [("id", VStr sid)]));
     create_session := fun n owner md => (n, inr "session-1");
     add_message :=
       fun n sid msg_role msg_content md =>
         (S n, match write_fault sc n with
               | Some e => inl e
               | None => inr tt
               end);
     get_session_messages :=
       fun n sid limit => (n, inr (last_n limit (rows sc)));
     rag_agent_run := fun n prompt deps => (n, run_outcome sc);
     rag_agent_iter := fun n prompt deps => (n, iter_outcome sc);
     json_loads := loads;
     uuid4_hex8 := "0a1b2c3d";
     time_time := 1700000000;
     uuid4_hex8_next := "4e5f6a7b";
     time_time_next := 1700000002;
     default_search_type := "hybrid" |}.

Definition fresh : World nat := {| store := 0; trace := [] |}.

Definition no_fault (n : nat) : option PyExn := None.

Definition row (r c : string) : MessageRow :=
  {| row_role := r; row_content := c; row_metadata := [] |}.

(** An agent that answers "42", streamed as "4" then "2", after one tool
    call. *)
Definition search_part (raw : string) (call_id : string) : Part :=
  {| class_name := "ToolCallPart";
     part_tool_name := Some "vector_search";
     part_args := Some (ArgsStr raw);
     part_args_as_dict := None;
     part_tool_call_id := Some call_id |}.

Definition text_part : Part :=
  {| class_name := "TextPart";
     part_tool_name := None;
     part_args := None;
     part_args_as_dict := None;
     part_tool_call_id := None |}.

Definition answer_42 : AgentRunResult :=
  {| data := "42";
     all_messages :=
       inr [ {| parts := Some [search_part tesla_args "call-1"] |};
             {| parts := Some [text_part] |} ] |}.

Definition iteration_42 : AgentRun :=
  {| run_nodes :=
       [ {| is_model_request_node := true;
            node_events := [PartStartEvent "tool-call" ""];
            node_error := None |};
         {| is_model_request_node := false;
            node_events := [];
            node_error := None |};
         {| is_model_request_node := true;
            node_events := [PartStartEvent "text" "4";
                            PartDeltaEvent (TextPartDelta "2")];
            node_error := None |} ];
     run_error := None;
     run_result := answer_42 |}.

Definition happy : Script :=
  {| rows := [];
     run_outcome := inr answer_42;
     iter_outcome := inr iteration_42;
     write_fault := no_fault |}.

(** Seven earlier messages, oldest first. *)
Definition seven_rows : list MessageRow :=
  [ row "user" "m1"; row "assistant" "m2"; row "user" "m3";
    row "assistant" "m4"; row "user" "m5"; row "assistant" "m6";
    row "user" "m7" ].

Definition long_history : Script :=
  {| rows := seven_rows;
     run_outcome := inr answer_42;
     iter_outcome := inr iteration_42;
     write_fault := no_fault |}.

Definition short_history : Script :=
  {| rows := [row "user" "hello"; row "assistant" "hi"];
     run_outcome := inr answer_42;
     iter_outcome := inr iteration_42;
     write_fault := no_fault |}.

(** The first write fails, the store is back afterwards. *)
Definition first_write_fails : Script :=
  {| rows := [];
     run_outcome := inr answer_42;
     iter_outcome := inr iteration_42;
     write_fault :=
       fun n => match n with
                | O => Some (Exception "db down")
                | S _ => None
                end |}.

(** The reasoning call is refused for lack of quota. *)
Definition quota_error : PyExn :=
  Exception "Error code: 429 - insufficient_quota".

Definition out_of_quota : Script :=
  {| rows := [];
     run_outcome := inl quota_error;
     iter_outcome := inl quota_error;
     write_fault := no_fault |}.

(** Two tool calls; the arguments of the second are not JSON. *)
Definition two_calls_one_undecodable : AgentRunResult :=
  {| data := "done";
     all_messages :=
       inr [ {| parts := Some [search_part tesla_args "call-1"] |};
             {| parts := Some [text_part;
                               search_part "{not json" "call-2"] |} ] |}.

(** The same two calls; the second was made with the empty object. *)
Definition two_calls_second_empty : AgentRunResult :=
  {| data := "done";
     all_messages :=
       inr [ {| parts := Some [search_part tesla_args "call-1"] |};
             {| parts := Some [text_part; search_part "{}" "call-2"] |} ] |}.

Definition user_says (text : string) : OpenAIMessage :=
  {| role := "user"; content := text |}.

Definition ask (text : string) (streaming : bool) : OpenAIChatRequest :=
  {| model := "gpt-4o-mini";
     messages := [ {| role := "system"; content := "be brief" |};
                   user_says text ];
     stream := streaming;
     user := Some "alice" |}.

(** A request whose only message has the system role. *)
Definition no_user_message : OpenAIChatRequest :=
  {| model := "gpt-4o-mini";
     messages := [ {| role := "system"; content := "be brief" |} ];
     stream := false;
     user := Some "alice" |}.

(** The answer of [answer_42] as [execute_agent] returns it. *)
Definition answer_42_returned : string * list ToolCall :=
  ("42", [{| tool_name := "vector_search";
             args := [("query", JStr "tesla")];
             tool_call_id := Some "call-1" |}]).

(** What [execute_agent] says when the reasoning call is refused. *)
Definition quota_message : string :=
  "I encountered an error while processing your request: Error code: 429 - insufficient_quota".

Definition native_request (text : string) : ChatRequest :=
  {| message := text;
     session_id := Some "session-1";
     user_id := Some "alice";
     metadata := [];
     search_type := "hybrid" |}.

End Script.

(** ** Further scripted cases *)

Module Cases.

(** A store that knows the session "session-1" and no other, and that
    issues "session-2" to whoever asks for a new session. *)
Definition one_session (sc : Script.Script) : Collaborators nat :=
  {| get_session :=
       fun n sid =>
         (n, inr (if sid =? "session-1" then Some [("id", VStr sid)]
                  else None));
     create_session := fun n owner md => (n, inr "session-2");
     add_message := add_message (Script.collaborators sc);
     get_session_messages := get_session_messages (Script.collaborators sc);
     rag_agent_run := rag_agent_run (Script.collaborators sc);
     rag_agent_iter := rag_agent_iter (Script.collaborators sc);
     json_loads := Script.loads;
     uuid4_hex8 := "0a1b2c3d";
     time_time := 1700000000;
     uuid4_hex8_next := "4e5f6a7b";
     time_time_next := 1700000002;
     default_search_type := "hybrid" |}.

(** A store that cannot create sessions, for the reason given. *)
Definition no_new_session (reason : string) : Collaborators nat :=
  {| get_session := fun n sid => (n, inr None);
     create_session := fun n owner md => (n, inl (Exception reason));
     add_message := add_message (Script.collaborators Script.happy);
     get_session_messages :=
       get_session_messages (Script.collaborators Script.happy);
     rag_agent_run := rag_agent_run (Script.collaborators Script.happy);
     rag_agent_iter := rag_agent_iter (Script.collaborators Script.happy);
     json_loads := Script.loads;
     uuid4_hex8 := "0a1b2c3d";
     time_time := 1700000000;
     uuid4_hex8_next := "4e5f6a7b";
     time_time_next := 1700000002;
     default_search_type := "hybrid" |}.

(** A store whose session lookup is down. *)
Definition lookup_down : Collaborators nat :=
  {| get_session := fun n sid => (n, inl (Exception "connection refused"));
     create_session := fun n owner md => (n, inl (Exception "connection refused"));
     add_message := add_message (Script.collaborators Script.happy);
     get_session_messages :=
       get_session_messages (Script.collaborators Script.happy);
     rag_agent_run := rag_agent_run (Script.collaborators Script.happy);
     rag_agent_iter := rag_agent_iter (Script.collaborators Script.happy);
     json_loads := Script.loads;
     uuid4_hex8 := "0a1b2c3d";
     time_time := 1700000000;
     uuid4_hex8_next := "4e5f6a7b";
     time_time_next := 1700000002;
     default_search_type := "hybrid" |}.

(** Connections whose tests answer as given and whose other calls
    succeed. *)
Definition connections (db_up graph_up : bool) : Infrastructure nat :=
  {| initialize_database := fun n => (n, inr tt);
     initialize_graph := fun n => (n, inr tt);
     close_database := fun n => (n, inr tt);
     close_graph := fun n => (n, inr tt);
     test_connection := fun n => (n, inr db_up);
     test_graph_connection := fun n => (n, inr graph_up);
     datetime_now := 1700000000 |}.

(** An agent whose second model request breaks after the first fragment
    of its answer. *)
Definition interrupted : AgentRun :=
  {| run_nodes :=
       [ {| is_model_request_node := true;
            node_events := [PartStartEvent "text" "Let me ";
                            PartDeltaEvent (TextPartDelta "check.")];
            node_error := None |};
         {| is_model_request_node := true;
            node_events := [PartStartEvent "text" "The ans"];
            node_error := Some (Exception "connection reset") |};
         {| is_model_request_node := true;
            node_events := [PartStartEvent "text" "never streamed"];
            node_error := None |} ];
     run_error := None;
     run_result := Script.answer_42 |}.

Definition breaks_mid_stream : Script.Script :=
  {| Script.rows := [];
     Script.run_outcome := inr Script.answer_42;
     Script.iter_outcome := inr interrupted;
     Script.write_fault := Script.no_fault |}.

(** An agent that says what it is about to do in the model request that
    calls the tool, and answers in the next one.  Its final result is the
    answer alone. *)
Definition narrated : AgentRun :=
  {| run_nodes :=
       [ {| is_model_request_node := true;
            node_events := [PartStartEvent "text" "Let me search. ";
                            PartStartEvent "tool-call" ""];
            node_error := None |};
         {| is_model_request_node := false;
            node_events := [];
            node_error := None |};
         {| is_model_request_node := true;
            node_events := [PartStartEvent "text" "4";
                            PartDeltaEvent (TextPartDelta "2")];
            node_error := None |} ];
     run_error := None;
     run_result := Script.answer_42 |}.

Definition narrates_search : Script.Script :=
  {| Script.rows := [];
     Script.run_outcome := inr Script.answer_42;
     Script.iter_outcome := inr narrated;
     Script.write_fault := Script.no_fault |}.

(** A store whose state is the number of sessions it has created: the
    n-th session is "session-n", and a session is known once created. *)
Definition registry : Collaborators nat :=
  {| get_session :=
       fun n sid =>
         (n, inr (if existsb (fun k => sid =? "session-" ++ str_nat (S k))
                       (seq 0 n)
                  then Some [("id", VStr sid)]
                  else None));
     create_session :=
       fun n owner md => (S n, inr ("session-" ++ str_nat (S n)));
     add_message := fun n sid msg_role msg_content md => (n, inr tt);
     get_session_messages := fun n sid limit => (n, inr []);
     rag_agent_run := fun n prompt deps => (n, inr Script.answer_42);
     rag_agent_iter := fun n prompt deps => (n, inr Script.iteration_42);
     json_loads := Script.loads;
     uuid4_hex8 := "0a1b2c3d";
     time_time := 1700000000;
     uuid4_hex8_next := "4e5f6a7b";
     time_time_next := 1700000002;
     default_search_type := "hybrid" |}.

(** A request that names the session "session-1". *)
Definition resume (text : string) : ChatRequest :=
  {| message := text;
     session_id := Some "session-1";
     user_id := Some "alice";
     metadata := [];
     search_type := "hybrid" |}.

(** A request that names a session the store does not know. *)
Definition stale (text : string) : ChatRequest :=
  {| message := text;
     session_id := Some "session-0";
     user_id := Some "alice";
     metadata := [("client", VStr "cli")];
     search_type := "hybrid" |}.

End Cases.

(** * Properties *)

(** ** What a computation adds to the trace *)

Section TraceLogic.

Context {Store : Type}.

Lemma adds_ret (P : Effect -> Prop) {A : Type} (a : A) :
  adds P (ret (Store := Store) a).
Proof.
  intros w. exists []. simpl. rewrite app_nil_r. auto.
Qed.

Lemma adds_raise (P : Effect -> Prop) {A : Type} (e : PyExn) :
  adds P (raise (Store := Store) (A := A) e).
Proof.
  intros w. exists []. simpl. rewrite app_nil_r. auto.
Qed.

Lemma adds_lift (P : Effect -> Prop) {A : Type} (r : PyExn + A) :
  adds P (lift (Store := Store) r).
Proof.
  intros w. exists []. simpl. rewrite app_nil_r. auto.
Qed.

Lemma adds_emit (P : Effect -> Prop) (e : Effect) :
  P e -> adds P (emit (Store := Store) e).
Proof.
  intros He w. exists [e]. simpl. auto.
Qed.

Lemma adds_calling (P : Effect -> Prop) {A : Type} (e : Effect)
  (f : Store -> Store * (PyExn + A)) :
  P e -> adds P (calling e f).
Proof.
  intros He w. exists [e]. unfold calling.
  destruct (f (store w)) as [s' r]. simpl. auto.
Qed.

Lemma adds_bind (P : Effect -> Prop) {A B : Type} (m : M Store A)
  (k : A -> M Store B) :
  adds P m -> (forall a, adds P (k a)) -> adds P (bind m k).
Proof.
  intros Hm Hk w. unfold bind.
  destruct (Hm w) as [new1 [E1 F1]].
  destruct (m w) as [w1 [e | a]]; simpl in E1.
  - exists new1. simpl. auto.
  - destruct (Hk a w1) as [new2 [E2 F2]].
    exists (new1 ++ new2)%list. rewrite E2, E1, app_assoc.
    split; [reflexivity | apply Forall_app; auto].
Qed.

Lemma adds_try_except (P : Effect -> Prop) {A : Type} (body : M Store A)
  (handler : PyExn -> M Store A) :
  adds P body -> (forall e, adds P (handler e)) ->
  adds P (try_except body handler).
Proof.
  intros Hb Hh w. unfold try_except.
  destruct (Hb w) as [new1 [E1 F1]].
  destruct (body w) as [w1 [e | a]]; simpl in E1.
  - destruct (Hh e w1) as [new2 [E2 F2]].
    exists (new1 ++ new2)%list. rewrite E2, E1, app_assoc.
    split; [reflexivity | apply Forall_app; auto].
  - exists new1. simpl. auto.
Qed.

Lemma adds_weaken (P Q : Effect -> Prop) {A : Type} (m : M Store A) :
  (forall e, P e -> Q e) -> adds P m -> adds Q m.
Proof.
  intros HPQ Hm w. destruct (Hm w) as [new [E F]].
  exists new. split; [exact E | ].
  eapply Forall_impl; eauto.
Qed.

Lemma finishes_emit (P : Effect -> Prop) (final : Effect) :
  finishes P final (emit (Store := Store) final).
Proof.
  intros w. exists []. simpl. auto.
Qed.

Lemma finishes_bind (P : Effect -> Prop) (final : Effect) {A : Type}
  (m : M Store A) (k : A -> M Store unit) :
  adds P m -> (forall a, finishes P final (k a)) ->
  finishes P final (bind m k).
Proof.
  intros Hm Hk w. unfold bind.
  destruct (Hm w) as [new1 [E1 F1]].
  destruct (m w) as [w1 [e | a]]; simpl in E1.
  - exists new1. simpl. auto.
  - destruct (Hk a w1) as [new2 [F2 E2]].
    exists (new1 ++ new2)%list. split; [apply Forall_app; auto | ].
    destruct (snd (k a w1)); rewrite E2, E1, <- ?app_assoc; reflexivity.
Qed.

End TraceLogic.

Create HintDb trace_logic.

#[local] Hint Resolve adds_ret adds_raise adds_lift adds_emit adds_calling
  : trace_logic.

(** ** The loops over the agent's nodes *)

Section Loops.

Context {Store : Type} (C : Collaborators Store).

Variable P : Effect -> Prop.
Variable on_text : string -> M Store unit.
Hypothesis on_text_adds : forall text, adds P (on_text text).

Lemma adds_stream_events (events : list StreamItem) :
  forall full_response, adds P (stream_events on_text events full_response).
Proof.
  induction events as [| event rest IH]; intros full_response; simpl.
  - apply adds_ret.
  - destruct (text_of event) as [text |].
    + apply adds_bind; [apply on_text_adds | intros _; apply IH].
    + apply IH.
Qed.

Lemma adds_stream_node (node : Node) (full_response : string) :
  adds P (stream_node on_text node full_response).
Proof.
  unfold stream_node. destruct (is_model_request_node node).
  - apply adds_bind; [apply adds_stream_events | ].
    intros full'. destruct (node_error node); auto with trace_logic.
  - apply adds_ret.
Qed.

Lemma adds_stream_nodes (nodes : list Node) :
  forall full_response, adds P (stream_nodes on_text nodes full_response).
Proof.
  induction nodes as [| node rest IH]; intros full_response; simpl.
  - apply adds_ret.
  - apply adds_bind; [apply adds_stream_node | intros full'; apply IH].
Qed.

Lemma adds_iterate_agent (run : AgentRun) :
  adds P (iterate_agent on_text run).
Proof.
  unfold iterate_agent.
  apply adds_bind; [apply adds_stream_nodes | ].
  intros full'. destruct (run_error run); auto with trace_logic.
Qed.

End Loops.

Section NativeStream.

Context {Store : Type} (C : Collaborators Store).

Lemma adds_get_conversation_context (P : Effect -> Prop) (sid : string)
  (n : nat) :
  P (GetSessionMessages sid n) -> adds P (get_conversation_context C sid n).
Proof.
  intros HP. unfold get_conversation_context, call_get_session_messages.
  apply adds_bind; [apply adds_calling; exact HP | intros; apply adds_ret].
Qed.

Lemma generate_stream_try_finishes (request : ChatRequest) (sid : string) :
  finishes not_terminal (Yield (Native EndEvent))
    (generate_stream_try C request sid).
Proof.
  unfold generate_stream_try.
  apply finishes_bind; [apply adds_emit; reflexivity | intros _].
  apply finishes_bind;
    [apply adds_get_conversation_context; exact I | intros context].
  apply finishes_bind; [apply adds_calling; exact I | intros _].
  apply finishes_bind; [apply adds_calling; exact I | intros run].
  apply finishes_bind.
  { apply adds_iterate_agent. intros text. apply adds_emit. reflexivity. }
  intros full_response.
  apply finishes_bind.
  { destruct (extract_tool_calls (json_loads C) (run_result run)).
    - apply adds_ret.
    - apply adds_emit. reflexivity. }
  intros _.
  apply finishes_bind; [apply adds_calling; exact I | intros _].
  apply finishes_emit.
Qed.

Lemma yielded_app (t1 t2 : list Effect) :
  yielded (t1 ++ t2) = (yielded t1 ++ yielded t2)%list.
Proof. unfold yielded. apply flat_map_app. Qed.

Lemma yielded_not_terminal (new : list Effect) :
  Forall not_terminal new ->
  Forall (fun r => is_terminal r = false) (yielded new).
Proof.
  induction 1 as [| e rest He _ IH]; simpl.
  - constructor.
  - destruct e; simpl; auto.
Qed.

(** C1.  Every run of the generator of [/chat/stream] hands the transport
    exactly one terminal event, as its last record: [end] when the [try]
    block completes, [error] when it raises; no record before it is
    terminal and none follows it.  The generator itself never raises. *)
Theorem generate_stream_one_terminal_event_last :
  forall (request : ChatRequest) (sid : string) (w : World Store),
  exists (before : list WireRecord) (last : WireRecord),
    yielded (trace (fst (generate_stream C request sid w)))
    = (yielded (trace w) ++ before ++ [last])%list
    /\ Forall (fun r => is_terminal r = false) before
    /\ is_terminal last = true
    /\ snd (generate_stream C request sid w) = inr tt
    /\ match snd (generate_stream_try C request sid w) with
       | inr _ => last = Native EndEvent
       | inl e => last = Native (ErrorEvent ("Stream error: " ++ str e))
       end.
Proof.
  intros request sid w.
  destruct (generate_stream_try_finishes request sid w) as [new [Hnew Htrace]].
  unfold generate_stream, try_except.
  destruct (generate_stream_try C request sid w) as [w1 [e | []]];
    simpl in Htrace |- *.
  - exists (yielded new), (Native (ErrorEvent ("Stream error: " ++ str e))).
    rewrite Htrace, !yielded_app. simpl. rewrite app_nil_r, <- app_assoc.
    repeat split; auto using yielded_not_terminal.
  - exists (yielded new), (Native EndEvent).
    rewrite Htrace, !yielded_app. simpl.
    repeat split; auto using yielded_not_terminal.
Qed.

End NativeStream.

(** ** Runs that complete *)

Section CompletedRuns.

Context {Store : Type} (C : Collaborators Store).

Lemma concat_all_app (a b : list string) :
  concat_all (a ++ b) = concat_all a ++ concat_all b.
Proof.
  induction a as [| x a IH]; simpl.
  - reflexivity.
  - rewrite IH. clear IH.
    induction x as [| c x IHx]; simpl; [reflexivity | now rewrite IHx].
Qed.

Lemma append_assoc (a b c : string) : (a ++ b) ++ c = a ++ b ++ c.
Proof.
  induction a as [| x a IH]; simpl; [reflexivity | now rewrite IH].
Qed.

Lemma append_empty_r (a : string) : a ++ "" = a.
Proof.
  induction a as [| x a IH]; simpl; [reflexivity | now rewrite IH].
Qed.

(** A callback that hands [render text] to the transport and returns. *)
Variable on_text : string -> M Store unit.
Variable render : string -> list Effect.
Hypothesis on_text_renders :
  forall (text : string) (w : World Store),
    on_text text w
    = ({| store := store w; trace := (trace w ++ render text)%list |},
       inr tt).

(** Streaming the events of one node never raises: every fragment is
    rendered and accumulated. *)
Lemma stream_events_renders (events : list StreamItem) :
  forall (full : string) (w : World Store),
    stream_events on_text events full w
    = ({| store := store w;
          trace := (trace w
                    ++ flat_map render (texts_of_events events))%list |},
       inr (full ++ concat_all (texts_of_events events))).
Proof.
  induction events as [| event rest IH]; intros full [s t]; simpl.
  - unfold ret. now rewrite app_nil_r, append_empty_r.
  - unfold texts_of_events in *. simpl.
    destruct (text_of event) as [text |]; simpl.
    + unfold bind. rewrite on_text_renders, IH. simpl.
      now rewrite <- app_assoc, append_assoc.
    + apply IH.
Qed.

Lemma stream_nodes_returns (nodes : list Node) :
  forall (full full' : string) (w w' : World Store),
    stream_nodes on_text nodes full w = (w', inr full') ->
    w' = {| store := store w;
            trace := (trace w
                      ++ flat_map render (texts_of_nodes nodes))%list |}
    /\ full' = full ++ concat_all (texts_of_nodes nodes).
Proof.
  induction nodes as [| node rest IH]; intros full full' [s t] w' H;
    simpl in H.
  - unfold ret in H. inversion H; subst. simpl.
    now rewrite app_nil_r, append_empty_r.
  - unfold bind, stream_node in H.
    unfold texts_of_nodes. simpl. fold (texts_of_nodes rest).
    destruct (is_model_request_node node).
    + unfold bind in H. rewrite stream_events_renders in H.
      destruct (node_error node); [discriminate | ].
      unfold ret in H. apply IH in H. simpl in H.
      destruct H as [-> ->].
      now rewrite flat_map_app, app_assoc, concat_all_app, append_assoc.
    + unfold ret in H. apply IH in H. simpl in *. exact H.
Qed.

Lemma iterate_agent_returns (run : AgentRun) (full : string)
  (w w' : World Store) :
  iterate_agent on_text run w = (w', inr full) ->
  w' = {| store := store w;
          trace := (trace w
                    ++ flat_map render (streamed_texts run))%list |}
  /\ full = concat_all (streamed_texts run).
Proof.
  unfold iterate_agent, bind. intros H.
  destruct (stream_nodes on_text (run_nodes run) "" w)
    as [w1 [e | full1]] eqn:E; [discriminate | ].
  apply stream_nodes_returns in E. destruct E as [-> ->].
  destruct (run_error run); [discriminate | ].
  unfold ret in H. inversion H; subst. auto.
Qed.

End CompletedRuns.

Section StreamsThatComplete.

Context {Store : Type} (C : Collaborators Store).

Lemma flat_map_one {A B : Type} (f : A -> B) (l : list A) :
  flat_map (fun x => [f x]) l = map f l.
Proof. induction l; simpl; congruence. Qed.

Lemma iterate_agent_native_returns (run : AgentRun) (full : string)
  (w w' : World Store) :
  iterate_agent (fun text => yield (Native (TextEvent text))) run w
  = (w', inr full) ->
  w' = {| store := store w;
          trace := (trace w
                    ++ map text_record (streamed_texts run))%list |}
  /\ full = concat_all (streamed_texts run).
Proof.
  intros H.
  apply (iterate_agent_returns _ (fun text => [text_record text])) in H;
    [ | reflexivity].
  now rewrite flat_map_one in H.
Qed.

Lemma iterate_agent_openai_returns (request : OpenAIChatRequest)
  (response_id : string) (timestamp : Z) (run : AgentRun) (full : string)
  (w w' : World Store) :
  iterate_agent (openai_text request response_id timestamp) run w
  = (w', inr full) ->
  w' = {| store := store w;
          trace :=
            (trace w
             ++ flat_map (chunk_records response_id timestamp (model request))
                  (streamed_texts run))%list |}
  /\ full = concat_all (streamed_texts run).
Proof.
  apply iterate_agent_returns.
  intros [| c text] [s t]; simpl; [ | reflexivity].
  unfold ret. now rewrite app_nil_r.
Qed.

End StreamsThatComplete.

Section Persistence.

Context {Store : Type} (C : Collaborators Store).

(** A run of the [try] block of [generate_stream] that returns made every
    call below, in this order, and every call returned normally. *)
Lemma generate_stream_try_returns (request : ChatRequest) (sid : string)
  (w w' : World Store) :
  generate_stream_try C request sid w = (w', inr tt) ->
  exists s1 rows s2 s3 run,
    let deps :=
      {| deps_session_id := sid; deps_user_id := user_id request |} in
    let prompt := build_full_prompt (message request) (turns_of rows) in
    let tools := extract_tool_calls (json_loads C) (run_result run) in
    let user_md := [("user_id", opt_str (user_id request))] in
    let assistant_md :=
      [("streamed", VBool true);
       ("tool_calls", VInt (Z.of_nat (List.length tools)))] in
    let full := concat_all (streamed_texts run) in
    get_session_messages C (store w) sid 10 = (s1, inr rows)
    /\ add_message C s1 sid "user" (message request) user_md = (s2, inr tt)
    /\ rag_agent_iter C s2 prompt deps = (s3, inr run)
    /\ add_message C s3 sid "assistant" full assistant_md
       = (store w', inr tt)
    /\ trace w'
       = (trace w
          ++ [Yield (Native (SessionEvent sid));
              GetSessionMessages sid 10;
              AddMessage sid "user" (message request) user_md;
              AgentIterCall prompt deps]
          ++ map text_record (streamed_texts run)
          ++ tools_records tools
          ++ [AddMessage sid "assistant" full assistant_md;
              Yield (Native EndEvent)])%list.
Proof.
  unfold generate_stream_try, get_conversation_context,
    call_get_session_messages, call_add_message, call_agent_iter.
  unfold bind at 1. unfold yield at 1, emit at 1.
  unfold bind at 1. unfold bind at 1. unfold calling at 1. cbn [store trace].
  destruct (get_session_messages C (store w) sid 10) as [s1 [e | rows]]
    eqn:E1; [unfold ret; discriminate | ].
  unfold ret at 1. fold (turns_of rows).
  unfold bind at 1. unfold calling at 1. cbn [store trace].
  destruct (add_message C s1 sid "user" (message request) _)
    as [s2 [e | []]] eqn:E2; [discriminate | ].
  unfold bind at 1. unfold calling at 1. cbn [store trace].
  destruct (rag_agent_iter C s2 _ _) as [s3 [e | run]] eqn:E3;
    [discriminate | ].
  unfold bind at 1.
  match goal with
  | |- context [iterate_agent ?f run ?w0] =>
      destruct (iterate_agent f run w0) as [w4 [e | full]] eqn:Eiter;
        [discriminate | ]
  end.
  apply iterate_agent_native_returns in Eiter. destruct Eiter as [-> ->].
  cbn [store trace].
  intros H. exists s1, rows, s2, s3, run. cbn zeta.
  destruct (extract_tool_calls (json_loads C) (run_result run))
    as [| call calls] eqn:Etools.
  - unfold bind, ret, calling, yield, emit in H. cbn [store trace] in H.
    destruct (add_message C s3 sid "assistant" _ _) as [s4 [e | []]]
      eqn:E4; [discriminate | ].
    inversion H; subst; clear H. cbn [store trace tools_records].
    repeat split; try assumption. rewrite <- !app_assoc. reflexivity.
  - unfold bind, ret, calling, yield, emit in H. cbn [store trace] in H.
    destruct (add_message C s3 sid "assistant" _ _) as [s4 [e | []]]
      eqn:E4; [discriminate | ].
    inversion H; subst; clear H. cbn [store trace tools_records].
    repeat split; try assumption. rewrite <- !app_assoc. reflexivity.
Qed.

(** A run of the [try] block of [execute_agent] with persistence enabled
    that returns made every call below, in this order, and every call
    returned normally. *)
Lemma execute_agent_try_returns (question sid : string)
  (uid : option string) (w w' : World Store)
  (answer : string * list ToolCall) :
  execute_agent_try C question sid uid true w = (w', inr answer) ->
  exists s1 rows s2 result s3,
    let deps := {| deps_session_id := sid; deps_user_id := uid |} in
    let prompt := build_full_prompt question (turns_of rows) in
    let tools := extract_tool_calls (json_loads C) result in
    let md :=
      [("user_id", opt_str uid);
       ("tool_calls", VInt (Z.of_nat (List.length tools)))] in
    get_session_messages C (store w) sid 10 = (s1, inr rows)
    /\ rag_agent_run C s1 prompt deps = (s2, inr result)
    /\ add_message C s2 sid "user" question md = (s3, inr tt)
    /\ add_message C s3 sid "assistant" (data result) md
       = (store w', inr tt)
    /\ answer = (data result, tools)
    /\ trace w'
       = (trace w
          ++ [GetSessionMessages sid 10;
              AgentRunCall prompt deps;
              AddMessage sid "user" question md;
              AddMessage sid "assistant" (data result) md])%list.
Proof.
  unfold execute_agent_try, get_conversation_context,
    call_get_session_messages, call_agent_run, save_conversation_turn,
    call_add_message.
  unfold bind, ret, calling. cbn [store trace].
  destruct (get_session_messages C (store w) sid 10) as [s1 [e | rows]]
    eqn:E1; [discriminate | ].
  fold (turns_of rows). cbn [store trace].
  destruct (rag_agent_run C s1 _ _) as [s2 [e | result]] eqn:E2;
    [discriminate | ].
  cbn [store trace].
  destruct (add_message C s2 sid "user" question _) as [s3 [e | []]] eqn:E3;
    [discriminate | ].
  cbn [store trace].
  destruct (add_message C s3 sid "assistant" _ _) as [s4 [e | []]] eqn:E4;
    [discriminate | ].
  intros H. inversion H; subst; clear H. cbn [store trace].
  exists s1, rows, s2, result, s3. cbn zeta.
  repeat split; try assumption. rewrite <- !app_assoc. reflexivity.
Qed.


Lemma text_deltas_app (r1 r2 : list WireRecord) :
  text_deltas (r1 ++ r2) = (text_deltas r1 ++ text_deltas r2)%list.
Proof. unfold text_deltas. apply flat_map_app. Qed.


Lemma text_deltas_text_records (texts : list string) :
  text_deltas (yielded (map text_record texts)) = texts.
Proof. induction texts; simpl; congruence. Qed.


Lemma text_deltas_tools_records (tools : list ToolCall) :
  text_deltas (yielded (tools_records tools)) = [].
Proof. destruct tools; reflexivity. Qed.



Lemma chunk_deltas_app (r1 r2 : list WireRecord) :
  chunk_deltas (r1 ++ r2) = (chunk_deltas r1 ++ chunk_deltas r2)%list.
Proof. unfold chunk_deltas. apply flat_map_app. Qed.


(** The chunks carry the streamed text: the fragments that get no chunk
    are the empty ones. *)
Lemma chunk_deltas_chunk_records (response_id : string) (timestamp : Z)
  (model_name : string) (texts : list string) :
  concat_all
    (chunk_deltas
       (yielded
          (flat_map (chunk_records response_id timestamp model_name) texts)))
  = concat_all texts.
Proof.
  induction texts as [| text rest IH]; simpl; [reflexivity | ].
  rewrite yielded_app, chunk_deltas_app, concat_all_app, IH.
  destruct text; simpl; rewrite ?append_empty_r; reflexivity.
Qed.



End Persistence.


(** ** Streaming against non-streaming *)

Section RoundTrip.

Context {Store : Type} (C : Collaborators Store).

Lemma since_app (w w' : World Store) (new : list Effect) :
  trace w' = (trace w ++ new)%list -> since w w' = new.
Proof.
  intros H. unfold since. rewrite H.
  rewrite skipn_app, skipn_all, Nat.sub_diag. reflexivity.
Qed.

(** C8.  With a deterministic reasoning stub, when the streamed run and the
    non-streaming run of the same request from the same state both
    complete, both hand the agent the same prompt and dependencies; the
    response of the non-streaming run is the final result the stub returns
    for that prompt, and the concatenation of the contents of the [text]
    records of the stream is the concatenation, in order, of every text
    fragment of every model request of the stub's iteration for that
    prompt.  The two are equal exactly when the stub's final result is the
    concatenation of the text that it streams. *)
Theorem streamed_text_is_content_iff_result_is_streamed_text :
  forall (request : ChatRequest) (sid : string) (w w1 w2 : World Store)
    (answer : string * list ToolCall),
    deterministic_stub C ->
    execute_agent_try C (message request) sid (user_id request) true w
    = (w1, inr answer) ->
    generate_stream_try C request sid w = (w2, inr tt) ->
    exists (rows : list MessageRow) (result : AgentRunResult)
      (run : AgentRun),
      let deps :=
        {| deps_session_id := sid; deps_user_id := user_id request |} in
      let prompt := build_full_prompt (message request) (turns_of rows) in
      execute_agent C (message request) sid (user_id request) true w
      = (w1, inr answer)
      /\ generate_stream C request sid w = (w2, inr tt)
      /\ In (AgentRunCall prompt deps) (since w w1)
      /\ In (AgentIterCall prompt deps) (since w w2)
      /\ (forall s, snd (rag_agent_run C s prompt deps) = inr result)
      /\ (forall s, snd (rag_agent_iter C s prompt deps) = inr run)
      /\ fst answer = data result
      /\ concat_all (text_deltas (yielded (since w w2)))
         = concat_all (streamed_texts run)
      /\ (concat_all (text_deltas (yielded (since w w2))) = fst answer
          <-> data result = concat_all (streamed_texts run)).
Proof.
  intros request sid w w1 w2 answer Hstub Hrun Hstream.
  assert (Hexec : execute_agent C (message request) sid (user_id request)
                    true w = (w1, inr answer))
    by (unfold execute_agent, try_except; now rewrite Hrun).
  assert (Hgen : generate_stream C request sid w = (w2, inr tt))
    by (unfold generate_stream, try_except; now rewrite Hstream).
  apply execute_agent_try_returns in Hrun.
  destruct Hrun as (s1 & rows & s2 & result & s3 & Hrun).
  cbn zeta in Hrun.
  destruct Hrun as (Hrows & Hresult & _ & _ & -> & Htrace).
  apply generate_stream_try_returns in Hstream.
  destruct Hstream as (s1' & rows' & s2' & s3' & run & Hstream).
  cbn zeta in Hstream. destruct Hstream as (Hrows' & _ & Hiter & _ & Ht).
  rewrite Hrows in Hrows'. inversion Hrows'; subst s1' rows'; clear Hrows'.
  assert (Htexts : concat_all (text_deltas (yielded (since w w2)))
                   = concat_all (streamed_texts run)).
  { rewrite (since_app _ _ _ Ht).
    rewrite !yielded_app, !text_deltas_app.
    rewrite text_deltas_text_records, text_deltas_tools_records.
    cbn [yielded text_deltas flat_map app]. now rewrite app_nil_r. }
  exists rows, result, run. cbn zeta.
  split; [exact Hexec | ]. split; [exact Hgen | ].
  split; [rewrite (since_app _ _ _ Htrace); simpl; auto | ].
  split; [rewrite (since_app _ _ _ Ht); simpl; auto | ].
  split.
  { intros s.
    destruct (Hstub s s1
                (build_full_prompt (message request) (turns_of rows))
                {| deps_session_id := sid;
                   deps_user_id := user_id request |}) as [E _].
    rewrite E. now rewrite Hresult. }
  split.
  { intros s.
    destruct (Hstub s s2'
                (build_full_prompt (message request) (turns_of rows))
                {| deps_session_id := sid;
                   deps_user_id := user_id request |}) as [_ E].
    rewrite E. now rewrite Hiter. }
  split; [reflexivity | ]. split; [exact Htexts | ].
  rewrite Htexts. cbn [fst]. split; intros E; now rewrite E.
Qed.

End RoundTrip.

Lemma streamed_text_is_content_iff_result_is_streamed_text_witness :
  concat_all
    (text_deltas
       (yielded
          (since Script.fresh
             (fst (generate_stream_try (Script.collaborators Script.happy)
                     (Script.native_request "q") "session-1"
                     Script.fresh)))))
  = "42".
Proof.
  destruct (streamed_text_is_content_iff_result_is_streamed_text
              (Script.collaborators Script.happy) (Script.native_request "q")
              "session-1" Script.fresh
              (fst (execute_agent_try (Script.collaborators Script.happy)
                      "q" "session-1" (Some "alice") true Script.fresh))
              (fst (generate_stream_try (Script.collaborators Script.happy)
                      (Script.native_request "q") "session-1" Script.fresh))
              Script.answer_42_returned
              (fun s s' prompt deps => conj eq_refl eq_refl)
              eq_refl eq_refl)
    as (rows & result & run & _ & _ & _ & _ & Hresult & Hrun & _ & _ & Hiff).
  cbn zeta in Hresult, Hrun, Hiff.
  specialize (Hresult 0). specialize (Hrun 0).
  inversion Hresult; subst result. inversion Hrun; subst run.
  exact (proj2 Hiff eq_refl).
Defined.

(** A deterministic stub whose first model request says "Let me search. "
    before it calls its tool: both runs complete, the stream carries that
    text before the answer, the non-streaming response does not. *)
Lemma streamed_text_differs_from_content :
  deterministic_stub (Script.collaborators Cases.narrates_search)
  /\ snd (execute_agent_try (Script.collaborators Cases.narrates_search)
            "q" "session-1" (Some "alice") true Script.fresh)
     = inr Script.answer_42_returned
  /\ snd (generate_stream_try (Script.collaborators Cases.narrates_search)
            (Script.native_request "q") "session-1" Script.fresh)
     = inr tt
  /\ concat_all
       (text_deltas
          (yielded
             (since Script.fresh
                (fst (generate_stream
                        (Script.collaborators Cases.narrates_search)
                        (Script.native_request "q") "session-1"
                        Script.fresh)))))
     = "Let me search. 42"
  /\ concat_all
       (text_deltas
          (yielded
             (since Script.fresh
                (fst (generate_stream
                        (Script.collaborators Cases.narrates_search)
                        (Script.native_request "q") "session-1"
                        Script.fresh)))))
     <> fst Script.answer_42_returned.
Proof.
  split; [intros s s' prompt deps; split; reflexivity | ].
  split; [reflexivity | ]. split; [reflexivity | ].
  split; [reflexivity | ]. discriminate.
Qed.

(** ** The working prompt *)

Ltac adds_step :=
  first
    [ apply adds_ret
    | apply adds_raise
    | apply adds_lift
    | apply adds_emit
    | apply adds_calling
    | apply adds_bind; [ | intros ? ]
    | apply adds_try_except; [ | intros ? ]
    | match goal with
      | |- adds _ (if ?b then _ else _) => destruct b
      | |- adds _ (match ?x with _ => _ end) => destruct x
      end ].

Section WorkingPrompt.

Context {Store : Type} (C : Collaborators Store).

Lemma adds_save_conversation_turn (P : Effect -> Prop)
  (sid user_message assistant_message : string) (md : option Metadata) :
  (forall r c m, P (AddMessage sid r c m)) ->
  adds P (save_conversation_turn C sid user_message assistant_message md).
Proof.
  intros HP. unfold save_conversation_turn, call_add_message.
  repeat adds_step; apply HP.
Qed.

Lemma adds_execute_agent_except (P : Effect -> Prop) (question sid : string)
  (save : bool) (e : PyExn) :
  (forall r c m, P (AddMessage sid r c m)) ->
  (forall text, P (LogError text)) ->
  adds P (execute_agent_except C question sid save e).
Proof.
  intros HA HL. unfold execute_agent_except, logger_error.
  repeat adds_step; auto using adds_save_conversation_turn.
Qed.

(** A guarded computation that opens with a collaborator call records the
    call first, whatever follows. *)
Lemma try_except_opens_with_call {A B : Type} (e : Effect)
  (f : Store -> Store * (PyExn + A)) (k : A -> M Store B)
  (handler : PyExn -> M Store B) (w : World Store) :
  (forall a, adds any_effect (k a)) ->
  (forall x, adds any_effect (handler x)) ->
  exists rest,
    trace (fst (try_except (bind (calling e f) k) handler w))
    = (trace w ++ e :: rest)%list.
Proof.
  intros Hk Hh. unfold try_except, bind, calling.
  destruct (f (store w)) as [s1 [x | a]].
  - destruct (Hh x {| store := s1; trace := (trace w ++ [e])%list |})
      as [new [E _]].
    exists new. rewrite E. cbn [trace]. now rewrite <- app_assoc.
  - pose proof (adds_try_except any_effect (k a) handler (Hk a) Hh
                  {| store := s1; trace := (trace w ++ [e])%list |})
      as [new [E _]].
    unfold try_except in E. exists new. rewrite E. cbn [trace].
    now rewrite <- app_assoc.
Qed.

Lemma last_n_short {A : Type} (n : nat) (l : list A) :
  List.length l <= n -> last_n n l = l.
Proof.
  intros H. unfold last_n.
  replace (List.length l - n) with 0 by lia. reflexivity.
Qed.

(** C7, as amended.  Whenever the store returns prior messages, the agent
    is called with the fixed header, one [role: content] line for each of
    the last six messages of the assembler's output (itself asked for with
    the limit 10 and kept in the store's order), a blank line and the
    question under its label; with at most six prior messages, this is the
    framing of the whole output. *)
Theorem working_prompt_frames_last_six_messages :
  forall (question sid : string) (uid : option string) (save : bool)
    (w : World Store) (s1 : Store) (rows : list MessageRow),
    get_session_messages C (store w) sid 10 = (s1, inr rows) ->
    rows <> [] ->
    let context := turns_of rows in
    let prompt :=
      "Previous conversation:" ++ nl
        ++ String.concat nl (map render_turn (last_n 6 context))
        ++ nl ++ nl ++ "Current question: " ++ question in
    (exists rest,
       since w (fst (execute_agent C question sid uid save w))
       = GetSessionMessages sid 10
           :: AgentRunCall prompt
                {| deps_session_id := sid; deps_user_id := uid |}
           :: rest)
    /\ (List.length rows <= 6 ->
        prompt = claimed_full_prompt question context).
Proof.
  intros question sid uid save w s1 rows Hrows Hne context prompt. split.
  - assert (Hprompt : build_full_prompt question context = prompt).
    { subst prompt context. destruct rows; [contradiction | reflexivity]. }
    unfold execute_agent, execute_agent_try, get_conversation_context,
      call_get_session_messages.
    set (handler := execute_agent_except C question sid save).
    unfold try_except at 1, bind at 1, bind at 1, calling at 1.
    rewrite Hrows. unfold ret at 1. fold (turns_of rows). fold context.
    rewrite Hprompt. unfold call_agent_run.
    match goal with
    | |- context [bind (calling ?e ?f) ?k ?w0] =>
        destruct (try_except_opens_with_call e f k handler w0) as [rest E]
    end.
    + intros result. repeat adds_step; exact I.
    + intros x. apply adds_execute_agent_except; intros; exact I.
    + exists rest. unfold try_except in E. apply since_app.
      rewrite E. cbn [trace]. now rewrite <- app_assoc.
  - intros Hlen. subst prompt. unfold claimed_full_prompt.
    rewrite last_n_short; [reflexivity | ].
    subst context. unfold turns_of. now rewrite length_map.
Qed.

End WorkingPrompt.

Lemma working_prompt_frames_last_six_messages_witness :
  exists rest,
    since Script.fresh
      (fst (execute_agent (Script.collaborators Script.short_history)
              "q" "s" None true Script.fresh))
    = GetSessionMessages "s" 10
        :: AgentRunCall
             (claimed_full_prompt "q"
                (turns_of (Script.rows Script.short_history)))
             {| deps_session_id := "s"; deps_user_id := None |}
        :: rest.
Proof.
  destruct (working_prompt_frames_last_six_messages
              (Script.collaborators Script.short_history)
              "q" "s" None true Script.fresh 0
              (Script.rows Script.short_history))
    as [[rest E] Hshort].
  - reflexivity.
  - discriminate.
  - exists rest. rewrite <- Hshort; [exact E | simpl; lia].
Defined.

(** C7, as stated, fails: with seven prior messages the assembler returns
    all seven, and the prompt the agent receives frames the last six
    only. *)
Lemma working_prompt_drops_seventh_message :
  snd (get_conversation_context
         (Script.collaborators Script.long_history) "s" 10 Script.fresh)
  = inr (turns_of Script.seven_rows)
  /\ nth_error
       (trace (fst (execute_agent
                      (Script.collaborators Script.long_history)
                      "q" "s" None true Script.fresh)))
       1
     = Some (AgentRunCall
               (build_full_prompt "q" (turns_of Script.seven_rows))
               {| deps_session_id := "s"; deps_user_id := None |})
  /\ build_full_prompt "q" (turns_of Script.seven_rows)
     <> claimed_full_prompt "q" (turns_of Script.seven_rows).
Proof.
  split; [reflexivity | ]. split; [reflexivity | ].
  apply String.eqb_neq. reflexivity.
Qed.

(** ** The compatibility endpoint *)

Section Compatibility.

Context {Store : Type} (C : Collaborators Store).

Ltac in_session := simpl; auto.

Lemma adds_execute_agent_within (question sid : string)
  (uid : option string) (save : bool) :
  adds (within_session sid) (execute_agent C question sid uid save).
Proof.
  unfold execute_agent, execute_agent_try, execute_agent_except,
    get_conversation_context, call_get_session_messages, call_agent_run,
    save_conversation_turn, call_add_message, logger_error.
  repeat adds_step; in_session.
Qed.

Lemma adds_generate_openai_stream_within (request : OpenAIChatRequest)
  (user_message sid : string) (uid : option string) :
  adds (within_session sid)
    (generate_openai_stream C request user_message uid sid).
Proof.
  unfold generate_openai_stream, generate_openai_stream_try,
    get_conversation_context, call_get_session_messages, call_agent_iter,
    call_add_message, logger_error, yield.
  apply adds_try_except.
  - apply adds_bind; [repeat adds_step; in_session | intros context].
    apply adds_bind; [repeat adds_step; in_session | intros _].
    apply adds_bind; [repeat adds_step; in_session | intros run].
    apply adds_bind.
    { apply adds_iterate_agent. intros text. unfold openai_text, yield.
      destruct text; repeat adds_step; in_session. }
    intros full. repeat adds_step; in_session.
  - intros e. repeat adds_step; in_session.
Qed.

Lemma adds_completions_except (P : Effect -> Prop)
  (request : OpenAIChatRequest) (bound : option string) (e : PyExn) :
  (forall text, P (LogError text)) ->
  adds P (completions_except C request bound e).
Proof.
  intros HP. unfold completions_except, logger_error.
  repeat adds_step; auto.
Qed.

Lemma adds_completions_answer_within (request : OpenAIChatRequest)
  (user_message sid : string) (uid : option string) :
  adds (within_session sid)
    (completions_answer C request user_message uid sid).
Proof.
  unfold completions_answer, call_get_session, logger_error.
  apply adds_bind; [repeat adds_step; in_session | intros session_check].
  apply adds_bind; [repeat adds_step; in_session | intros _].
  destruct (negb (stream request)); [ | apply adds_ret].
  apply adds_bind; [ | intros answer; apply adds_ret].
  apply adds_try_except; [apply adds_execute_agent_within | intros e].
  repeat adds_step; in_session.
Qed.

Lemma has_user_message_converts (request : OpenAIChatRequest) :
  has_user_message request = true ->
  exists user_message,
    convert_openai_to_internal request = inr (user_message, user request).
Proof.
  unfold has_user_message, convert_openai_to_internal, last_opt.
  intros H.
  destruct (rev (filter (fun msg => role msg =? "user") (messages request)))
    as [| latest others] eqn:E; [ | eauto].
  apply (f_equal (@rev _)) in E. rewrite rev_involutive in E. simpl in E.
  apply existsb_exists in H. destruct H as [msg [Hin Hrole]].
  assert (Hf : In msg (filter (fun m => role m =? "user")
                         (messages request)))
    by (apply filter_In; auto).
  rewrite E in Hf. contradiction.
Qed.

Lemma no_user_message_rejected (request : OpenAIChatRequest) :
  has_user_message request = false ->
  convert_openai_to_internal request
  = inl (HTTPException 400 "No user message found in request").
Proof.
  unfold has_user_message, convert_openai_to_internal, last_opt.
  intros H.
  assert (E : filter (fun msg => role msg =? "user") (messages request) = []).
  { induction (messages request) as [| m l IH]; simpl in *; auto.
    apply orb_false_iff in H. destruct H as [Hm Hl].
    rewrite Hm. auto. }
  rewrite E. reflexivity.
Qed.

(** The first statements of [chat_completions] on a request that carries
    a user message: the session is created, never looked up. *)
Lemma completions_session_creates (request : OpenAIChatRequest)
  (w : World Store) (user_message : string) :
  convert_openai_to_internal request = inr (user_message, user request) ->
  completions_session C request w
  = (let (s', r) :=
       create_session C (store w) (user request)
         [("openai_format", VBool true); ("model", VStr (model request))] in
     ({| store := s';
         trace := (trace w
                   ++ [CreateSession (user request)
                         [("openai_format", VBool true);
                          ("model", VStr (model request))]])%list |},
      match r with
      | inl e => inl e
      | inr sid => inr (user_message, user request, sid)
      end)).
Proof.
  intros Hconv.
  unfold completions_session, get_or_create_session, call_create_session,
    bind, lift, calling, ret.
  rewrite Hconv. cbn [truthy_str session_id fst snd user_id metadata].
  destruct (create_session C (store w) (user request) _) as [s' [e | sid]];
    reflexivity.
Qed.

(** Served under a session, [chat_completions] opens with the lookup that
    verifies the session. *)
Lemma completions_from_session_opens_with_lookup
  (request : OpenAIChatRequest) (user_message sid : string)
  (uid : option string) (w : World Store) :
  exists rest,
    trace (fst (completions_from_session C request user_message uid sid w))
    = (trace w ++ GetSession sid :: rest)%list.
Proof.
  unfold completions_from_session, completions_answer, call_get_session.
  unfold bind at 1.
  match goal with
  | |- context [try_except (bind (calling ?e ?f) ?k) ?h w] =>
      destruct (try_except_opens_with_call e f k h w) as [rest1 H1]
  end.
  - intros session_check.
    apply adds_bind;
      [unfold logger_error; repeat adds_step; exact I | intros _].
    destruct (negb (stream request)); [ | apply adds_ret].
    apply adds_bind; [ | intros answer; apply adds_ret].
    apply adds_try_except.
    + apply (adds_weaken (within_session sid));
        [intros; exact I | apply adds_execute_agent_within].
    + intros e. unfold logger_error. repeat adds_step; exact I.
  - intros e. apply adds_bind; [ | intros; apply adds_ret].
    apply adds_completions_except. intros; exact I.
  - match goal with
    | |- context [try_except ?m ?h w] =>
        destruct (try_except m h w) as [w1 [e | [response | ]]];
          cbn [fst] in H1 |- *
    end.
    + exists rest1. exact H1.
    + exists rest1. exact H1.
    + destruct (adds_generate_openai_stream_within request user_message sid
                  uid w1) as [new [E _]].
      unfold bind, ret.
      destruct (generate_openai_stream C request user_message uid sid w1)
        as [w2 [e | []]]; cbn [fst] in E |- *;
        exists (rest1 ++ new)%list; rewrite E, H1, <- app_assoc;
        reflexivity.
Qed.

(** C10.  A compatibility request that carries a user message calls
    [create_session] before anything else, on the state as it stands, for
    the caller's user identifier, and looks no session up before it.  When
    the call returns an identifier, the handler goes on from the state the
    creation left and serves the whole request under that identifier: the
    next call is the lookup of that session, no other session is created
    and every later access to the store or to the agent names it.  When
    the call raises, the handler goes to its [except] clause and touches no
    session at all. *)
Theorem completions_with_user_message_create_session_first :
  forall (request : OpenAIChatRequest) (w : World Store),
    has_user_message request = true ->
    let md := [("openai_format", VBool true);
               ("model", VStr (model request))] in
    let created :=
      {| store := fst (create_session C (store w) (user request) md);
         trace := (trace w ++ [CreateSession (user request) md])%list |} in
    exists user_message,
      convert_openai_to_internal request = inr (user_message, user request)
      /\ match snd (create_session C (store w) (user request) md) with
         | inr sid =>
             chat_completions C request w
             = completions_from_session C request user_message
                 (user request) sid created
             /\ exists rest,
                  since w (fst (chat_completions C request w))
                  = CreateSession (user request) md :: GetSession sid :: rest
                  /\ Forall (within_session sid) rest
         | inl e =>
             chat_completions C request w
             = (response <- completions_except C request None e ;;
                ret (Completed response)) created
             /\ exists rest,
                  since w (fst (chat_completions C request w))
                  = CreateSession (user request) md :: rest
                  /\ Forall touches_no_session rest
         end.
Proof.
  intros request w Huser md created.
  destruct (has_user_message_converts request Huser) as [user_message Hconv].
  exists user_message. split; [exact Hconv | ].
  unfold chat_completions.
  rewrite (completions_session_creates request w user_message Hconv).
  fold md. subst created.
  destruct (create_session C (store w) (user request) md) as [s1 [e | sid]];
    cbn [fst snd].
  - split; [reflexivity | ].
    destruct (adds_bind touches_no_session
                (completions_except C request None e)
                (fun response => ret (Completed response))
                (adds_completions_except _ request None e
                   (fun _ => eq_refl))
                (fun _ => adds_ret _ _)
                {| store := s1;
                   trace :=
                     (trace w ++ [CreateSession (user request) md])%list |})
      as [new [E F]].
    exists new. split; [ | exact F].
    apply since_app. refine (eq_trans E _).
    cbn [trace]. now rewrite <- app_assoc.
  - split; [reflexivity | ].
    fold (completions_from_session C request user_message (user request)
            sid).
    assert (H : adds (within_session sid)
                  (completions_from_session C request user_message
                     (user request) sid)).
    { unfold completions_from_session. apply adds_bind.
      - apply adds_try_except; [apply adds_completions_answer_within | ].
        intros e. apply adds_bind; [ | intros; apply adds_ret].
        apply adds_completions_except. intros; in_session.
      - intros [response | ]; [apply adds_ret | ].
        apply adds_bind; [ | intros; apply adds_ret].
        apply adds_generate_openai_stream_within. }
    destruct (H {| store := s1;
                   trace :=
                     (trace w ++ [CreateSession (user request) md])%list |})
      as [new [E F]].
    destruct (completions_from_session_opens_with_lookup request
                user_message sid (user request)
                {| store := s1;
                   trace :=
                     (trace w ++ [CreateSession (user request) md])%list |})
      as [rest Hrest].
    rewrite E in Hrest. apply app_inv_head in Hrest. subst new.
    inversion F as [| first others _ Hothers]; subst.
    exists rest. split; [ | exact Hothers].
    apply since_app. refine (eq_trans E _).
    cbn [trace]. now rewrite <- app_assoc.
Qed.

End Compatibility.

Lemma completions_with_user_message_create_session_first_witness :
  exists user_message,
    convert_openai_to_internal (Script.ask "hi" false)
    = inr (user_message, Some "alice")
    /\ chat_completions Cases.registry (Script.ask "hi" false) Script.fresh
       = completions_from_session Cases.registry (Script.ask "hi" false)
           user_message (Some "alice") "session-1"
           {| store := 1;
              trace :=
                [CreateSession (Some "alice")
                   [("openai_format", VBool true);
                    ("model", VStr "gpt-4o-mini")]] |}
       /\ exists rest,
            since Script.fresh
              (fst (chat_completions Cases.registry (Script.ask "hi" false)
                      Script.fresh))
            = CreateSession (Some "alice")
                [("openai_format", VBool true); ("model", VStr "gpt-4o-mini")]
                :: GetSession "session-1" :: rest
            /\ Forall (within_session "session-1") rest.
Proof.
  exact (completions_with_user_message_create_session_first Cases.registry
           (Script.ask "hi" false) Script.fresh eq_refl).
Defined.

(** A request without a user message is turned away before any session
    call: the store, which counts the sessions it has created, still
    counts none, and the trace holds the error log alone. *)
Lemma request_without_user_message_creates_no_session :
  chat_completions Cases.registry Script.no_user_message Script.fresh
  = ({| store := 0;
        trace :=
          [LogError
             "Chat completions endpoint failed: 400: No user message found in request"] |},
     inl (HTTPException 500 "400: No user message found in request")).
Proof. reflexivity. Qed.

(** ** Failures on the compatibility endpoint *)

Section Recovery.

Context {Store : Type} (C : Collaborators Store).

(** C3.  What the code does with a compatibility request without a
    user-role message: the 400 raised by [convert_openai_to_internal] is
    caught by the handler's own [except Exception] clause and raised again
    as a 500 whose detail quotes the 400; nothing but the error log
    happens, so no session is looked up or created. *)
Theorem no_user_message_is_answered_with_500 :
  forall (request : OpenAIChatRequest) (w : World Store),
    has_user_message request = false ->
    chat_completions C request w
    = ({| store := store w;
          trace :=
            (trace w
             ++ [LogError
                   "Chat completions endpoint failed: 400: No user message found in request"])%list |},
       inl (HTTPException 500 "400: No user message found in request")).
Proof.
  intros request w H.
  unfold chat_completions, completions_session, bind at 1, lift.
  rewrite (no_user_message_rejected request H).
  reflexivity.
Qed.

(** C4.  What the code does when the reasoning call of a non-streaming
    compatibility request raises, a quota error included: [execute_agent]
    catches the exception itself, so the response is a 200 whose content is
    the generic failure message followed by the text of the exception,
    never the cooldown apology; the turn is persisted as two messages
    tagged with the error. *)
Theorem upstream_failure_is_answered_with_generic_message :
  forall (request : OpenAIChatRequest) (w : World Store)
    (user_message sid : string) (e : PyExn)
    (session : option Session) (rows : list MessageRow)
    (s1 s2 s3 s4 s5 s6 : Store),
    let md := [("openai_format", VBool true);
               ("model", VStr (model request))] in
    let deps :=
      {| deps_session_id := sid; deps_user_id := user request |} in
    let prompt := build_full_prompt user_message (turns_of rows) in
    let error_md := [("error", VStr (str e))] in
    let error_response :=
      "I encountered an error while processing your request: " ++ str e in
    stream request = false ->
    convert_openai_to_internal request = inr (user_message, user request) ->
    create_session C (store w) (user request) md = (s1, inr sid) ->
    get_session C s1 sid = (s2, inr session) ->
    get_session_messages C s2 sid 10 = (s3, inr rows) ->
    rag_agent_run C s3 prompt deps = (s4, inl e) ->
    add_message C s4 sid "user" user_message error_md = (s5, inr tt) ->
    add_message C s5 sid "assistant" error_response error_md
    = (s6, inr tt) ->
    exists w',
      chat_completions C request w
      = (w', inr (Completed
                    (create_openai_response (fresh_response_id C)
                       (time_time C) error_response sid (model request)
                       false)))
      /\ writes (since w w')
         = [AddMessage sid "user" user_message error_md;
            AddMessage sid "assistant" error_response error_md]
      /\ error_response <> cooldown_apology.
Proof.
  intros request w user_message sid e session rows s1 s2 s3 s4 s5 s6
    md deps prompt error_md error_response
    Hstream Hconv Hcreate Hsession Hrows Hrun Huser Hassistant.
  unfold chat_completions.
  rewrite (completions_session_creates C request w user_message Hconv).
  fold md. rewrite Hcreate.
  unfold completions_answer, call_get_session.
  unfold try_except at 1, bind at 1, bind at 1, bind at 1, calling at 1.
  cbn [store trace]. rewrite Hsession, Hstream. cbn [negb].
  assert (Hagent :
    forall t : list Effect,
      execute_agent C user_message sid (user request) true
        {| store := s2; trace := t |}
      = ({| store := s6;
            trace :=
              (t ++ [GetSessionMessages sid 10;
                     AgentRunCall prompt deps;
                     LogError ("Agent execution failed: " ++ str e);
                     AddMessage sid "user" user_message error_md;
                     AddMessage sid "assistant" error_response error_md])%list |},
         inr (error_response, []))).
  { intros t.
    unfold execute_agent, execute_agent_try, execute_agent_except,
      get_conversation_context, call_get_session_messages, call_agent_run,
      save_conversation_turn, call_add_message, logger_error, emit,
      try_except, bind, calling, ret.
    cbn [store trace]. rewrite Hrows. cbn [store trace].
    fold (turns_of rows). fold prompt. fold deps. rewrite Hrun.
    cbn [store trace]. fold error_md. fold error_response.
    rewrite Huser. cbn [store trace]. rewrite Hassistant.
    cbn [store trace]. rewrite <- !app_assoc. reflexivity. }
  destruct session as [[| field fields] | ];
    unfold logger_error, emit, bind, try_except, ret; cbn [store trace];
    rewrite Hagent; cbn [fst snd trace store];
    (eexists; split; [reflexivity | ]; split;
     [ erewrite since_app;
       [ | cbn [trace]; rewrite <- !app_assoc; reflexivity ];
       reflexivity
     | subst error_response; intros Habs; discriminate Habs ]).
Qed.

End Recovery.

Lemma no_user_message_is_answered_with_500_witness :
  snd (chat_completions (Script.collaborators Script.happy)
         Script.no_user_message Script.fresh)
  = inl (HTTPException 500 "400: No user message found in request").
Proof.
  exact (f_equal snd
           (no_user_message_is_answered_with_500
              (Script.collaborators Script.happy)
              Script.no_user_message Script.fresh eq_refl)).
Defined.

Lemma upstream_failure_is_answered_with_generic_message_witness :
  exists w',
    chat_completions (Script.collaborators Script.out_of_quota)
      (Script.ask "hi" false) Script.fresh
    = (w', inr (Completed
                  (create_openai_response "chatcmpl-0a1b2c3d" 1700000000
                     Script.quota_message "session-1" "gpt-4o-mini"
                     false)))
    /\ writes (since Script.fresh w')
       = [AddMessage "session-1" "user" "hi"
            [("error", VStr "Error code: 429 - insufficient_quota")];
          AddMessage "session-1" "assistant" Script.quota_message
            [("error", VStr "Error code: 429 - insufficient_quota")]]
    /\ Script.quota_message <> cooldown_apology.
Proof.
  apply (upstream_failure_is_answered_with_generic_message
           (Script.collaborators Script.out_of_quota)
           (Script.ask "hi" false) Script.fresh "hi" "session-1"
           Script.quota_error (Some [("id", VStr "session-1")]) []
           0 0 0 0 1 2); reflexivity.
Defined.

(** ** A store that fails after the answer *)

Section StoreFailure.

Context {Store : Type} (C : Collaborators Store).

(** C5, as amended.  When a write of the turn fails after the agent has
    answered, [execute_agent] logs the failure and saves the turn again,
    with the generic error message in place of the answer and the failure
    as metadata; when this second save succeeds, the caller receives the
    generic error message and no tool calls, and the run completes. *)
Theorem store_failure_replaces_answer_with_error_message :
  forall (question sid : string) (uid : option string) (w : World Store)
    (rows : list MessageRow) (result : AgentRunResult) (e : PyExn)
    (s1 s2 s3 s4 s5 : Store),
    let deps := {| deps_session_id := sid; deps_user_id := uid |} in
    let prompt := build_full_prompt question (turns_of rows) in
    let md :=
      [("user_id", opt_str uid);
       ("tool_calls",
        VInt (Z.of_nat
                (List.length (extract_tool_calls (json_loads C) result))))] in
    let error_md := [("error", VStr (str e))] in
    let error_response :=
      "I encountered an error while processing your request: " ++ str e in
    get_session_messages C (store w) sid 10 = (s1, inr rows) ->
    rag_agent_run C s1 prompt deps = (s2, inr result) ->
    (add_message C s2 sid "user" question md = (s3, inl e)
     \/ exists s, add_message C s2 sid "user" question md = (s, inr tt)
                  /\ add_message C s sid "assistant" (data result) md
                     = (s3, inl e)) ->
    add_message C s3 sid "user" question error_md = (s4, inr tt) ->
    add_message C s4 sid "assistant" error_response error_md
    = (s5, inr tt) ->
    exists (w' : World Store) (attempted : list Effect),
      execute_agent C question sid uid true w
      = (w', inr (error_response, []))
      /\ store w' = s5
      /\ since w w'
         = (GetSessionMessages sid 10 :: AgentRunCall prompt deps
              :: attempted
              ++ [LogError ("Agent execution failed: " ++ str e);
                  AddMessage sid "user" question error_md;
                  AddMessage sid "assistant" error_response error_md])%list
      /\ writes attempted = attempted.
Proof.
  intros question sid uid w rows result e s1 s2 s3 s4 s5
    deps prompt md error_md error_response
    Hrows Hrun Hfail Huser Hassistant.
  unfold execute_agent, execute_agent_try, execute_agent_except,
    get_conversation_context, call_get_session_messages, call_agent_run,
    save_conversation_turn, call_add_message, logger_error, emit,
    try_except, bind, calling, ret.
  cbn [store trace]. rewrite Hrows. cbn [store trace].
  fold (turns_of rows). fold prompt. fold deps. rewrite Hrun.
  cbn [store trace]. fold md.
  destruct Hfail as [Hfirst | [s [Hfirst Hsecond]]].
  - rewrite Hfirst. cbn [store trace]. fold error_md. fold error_response.
    rewrite Huser. cbn [store trace]. rewrite Hassistant.
    eexists. exists [AddMessage sid "user" question md].
    split; [reflexivity | ]. split; [reflexivity | ].
    split; [ | reflexivity].
    apply since_app. cbn [trace]. rewrite <- !app_assoc. reflexivity.
  - rewrite Hfirst. cbn [store trace]. rewrite Hsecond.
    cbn [store trace]. fold error_md. fold error_response.
    rewrite Huser. cbn [store trace]. rewrite Hassistant.
    eexists. exists [AddMessage sid "user" question md;
                     AddMessage sid "assistant" (data result) md].
    split; [reflexivity | ]. split; [reflexivity | ].
    split; [ | reflexivity].
    apply since_app. cbn [trace]. rewrite <- !app_assoc. reflexivity.
Qed.

End StoreFailure.

Lemma store_failure_replaces_answer_with_error_message_witness :
  exists (w' : World nat),
    execute_agent (Script.collaborators Script.first_write_fails)
      "q" "s" None true Script.fresh
    = (w', inr ("I encountered an error while processing your request: db down",
                [])).
Proof.
  destruct (store_failure_replaces_answer_with_error_message
              (Script.collaborators Script.first_write_fails)
              "q" "s" None Script.fresh [] Script.answer_42
              (Exception "db down") 0 0 1 2 3)
    as (w' & attempted & E & _).
  - reflexivity.
  - reflexivity.
  - left. reflexivity.
  - reflexivity.
  - reflexivity.
  - exists w'. exact E.
Defined.

(** C5, as stated, fails: the agent answers "42", the first write of the
    turn fails, and the caller receives the error message instead of the
    answer. *)
Lemma store_failure_changes_the_answer :
  snd (rag_agent_run (Script.collaborators Script.first_write_fails) 0 "q"
         {| deps_session_id := "s"; deps_user_id := None |})
  = inr Script.answer_42
  /\ snd (execute_agent (Script.collaborators Script.first_write_fails)
            "q" "s" None true Script.fresh)
     = inr ("I encountered an error while processing your request: db down",
            [])
  /\ "I encountered an error while processing your request: db down"
     <> data Script.answer_42.
Proof.
  split; [reflexivity | ]. split; [reflexivity | ].
  apply String.eqb_neq. reflexivity.
Qed.

(** ** Tool call tracking *)

Section ToolCalls.

Variable loads : string -> option Json.

Lemma decode_fails_empty (part : Part) :
  decode_fails loads part -> decode_args loads part = JObj [].
Proof.
  intros [[s [Hargs Hloads]] Hdict]. unfold decode_args.
  rewrite Hargs, Hloads.
  destruct Hdict as [-> | [e ->]]; reflexivity.
Qed.

Lemma tool_calls_of_parts_records (ps : list Part) :
  Forall (decodes_to_mapping loads) (filter is_tool_call_part ps) ->
  Forall2 (records loads) (filter is_tool_call_part ps)
    (tool_calls_of_parts loads ps).
Proof.
  induction ps as [| part rest IH]; simpl; intros H.
  - constructor.
  - destruct (is_tool_call_part part) eqn:Ekind; [ | apply IH; exact H].
    inversion H as [| ? ? [fields Hfields] Hrest]; subst.
    unfold tool_call_of_part. rewrite Hfields. simpl.
    constructor; [ | apply IH; exact Hrest].
    repeat split; simpl; auto.
    intros Hfail. apply decode_fails_empty in Hfail.
    rewrite Hfail in Hfields. now inversion Hfields.
Qed.

(** C6, as amended.  When the arguments of every tool call of a run either
    decode to a mapping or fail to decode, the tracker returns one record
    per tool call, in invocation order, each with the name and identifier
    of its call; the record of a call whose arguments fail to decode has
    an empty argument mapping.  (No record carries a decode-error
    flag.) *)
Theorem undecodable_call_is_kept_with_empty_arguments :
  forall (result : AgentRunResult) (msgs : list ModelMessage),
    all_messages result = inr msgs ->
    Forall (decodes_to_mapping loads) (tool_call_parts msgs) ->
    Forall2 (records loads) (tool_call_parts msgs)
      (extract_tool_calls loads result).
Proof.
  intros result msgs Hmsgs. unfold extract_tool_calls. rewrite Hmsgs.
  clear Hmsgs result.
  induction msgs as [| msg rest IH]; simpl; intros H.
  - constructor.
  - apply Forall_app in H. destruct H as [Hmsg Hrest].
    apply Forall2_app; [ | apply IH; exact Hrest].
    destruct (parts msg) as [ps |]; [ | constructor].
    apply tool_calls_of_parts_records. exact Hmsg.
Qed.

End ToolCalls.

Lemma undecodable_call_is_kept_with_empty_arguments_witness :
  Forall2 (records Script.loads)
    [Script.search_part Script.tesla_args "call-1";
     Script.search_part "{not json" "call-2"]
    [ {| tool_name := "vector_search";
         args := [("query", JStr "tesla")];
         tool_call_id := Some "call-1" |};
      {| tool_name := "vector_search";
         args := [];
         tool_call_id := Some "call-2" |} ].
Proof.
  apply (undecodable_call_is_kept_with_empty_arguments Script.loads
           Script.two_calls_one_undecodable
           [ {| parts :=
                  Some [Script.search_part Script.tesla_args "call-1"] |};
             {| parts :=
                  Some [Script.text_part;
                        Script.search_part "{not json" "call-2"] |} ]).
  - reflexivity.
  - simpl. repeat constructor.
    + exists [("query", JStr "tesla")]. reflexivity.
    + exists []. reflexivity.
Defined.

(** C6, as stated, fails: the record of the call whose arguments are not
    JSON is the record of a call made with the empty object, so nothing on
    a record can serve as a decode-error flag. *)
Lemma undecodable_call_carries_no_flag :
  decode_fails Script.loads (Script.search_part "{not json" "call-2")
  /\ ~ decode_fails Script.loads (Script.search_part "{}" "call-2")
  /\ ~ exists decode_error : ToolCall -> bool,
         map decode_error
           (extract_tool_calls Script.loads Script.two_calls_one_undecodable)
         = [false; true]
         /\ map decode_error
              (extract_tool_calls Script.loads Script.two_calls_second_empty)
            = [false; false].
Proof.
  split; [ | split].
  - split; [exists "{not json"; split; reflexivity | left; reflexivity].
  - intros [[s [Hargs Hloads]] _]. simpl in Hargs.
    inversion Hargs; subst. discriminate Hloads.
  - intros [decode_error [Hbad Hgood]].
    vm_compute in Hbad, Hgood. congruence.
Qed.

(** ** Fusion *)

Import RetrievalFuser.

Section Fusion.

Local Open Scope Q_scope.

Lemma id_leb_total (a b : string) : id_leb a b = true \/ id_leb b a = true.
Proof.
  unfold id_leb.
  destruct (String_as_OT.compare_spec a b) as [E | L | G]; auto.
  right. unfold String_as_OT.lt in G. now rewrite G.
Qed.

Lemma id_leb_trans (a b c : string) :
  id_leb a b = true -> id_leb b c = true -> id_leb a c = true.
Proof.
  unfold id_leb.
  pose proof (@StrictOrder_Transitive _ _ String_as_OT.lt_strorder) as T.
  pose proof (@StrictOrder_Irreflexive _ _ String_as_OT.lt_strorder) as I.
  destruct (String_as_OT.compare_spec a b) as [E | L | G];
    try discriminate;
    destruct (String_as_OT.compare_spec b c) as [E' | L' | G'];
    try discriminate; intros _ _;
    destruct (String_as_OT.compare_spec a c) as [E2 | L2 | G2];
    try reflexivity; exfalso;
    unfold String_as_OT.eq in *; subst.
  - exact (I _ G2).
  - exact (I _ (T _ _ _ L' G2)).
  - exact (I _ (T _ _ _ L G2)).
  - exact (I _ (T _ _ _ L (T _ _ _ L' G2))).
Qed.

Lemma tie_leb_total (a b : FusedEntry) :
  tie_leb a b = true \/ tie_leb b a = true.
Proof.
  unfold tie_leb.
  destruct (Nat.lt_trichotomy (priority (entry_source a))
              (priority (entry_source b))) as [L | [E | G]].
  - left. apply Nat.ltb_lt in L. now rewrite L.
  - rewrite E, Nat.eqb_refl, Nat.ltb_irrefl. simpl. apply id_leb_total.
  - right. apply Nat.ltb_lt in G. now rewrite G.
Qed.

Lemma tie_leb_trans (a b c : FusedEntry) :
  tie_leb a b = true -> tie_leb b c = true -> tie_leb a c = true.
Proof.
  unfold tie_leb. intros Hab Hbc.
  apply orb_true_iff in Hab. apply orb_true_iff in Hbc.
  apply orb_true_iff.
  destruct Hab as [Hab | Hab]; destruct Hbc as [Hbc | Hbc];
    rewrite ?andb_true_iff, ?Nat.ltb_lt, ?Nat.eqb_eq in *.
  - left. lia.
  - left. destruct Hbc. lia.
  - left. destruct Hab. lia.
  - right. destruct Hab as [E1 L1], Hbc as [E2 L2].
    split; [lia | eapply id_leb_trans; eauto].
Qed.

Lemma rank_leb_total (a b : FusedEntry) :
  rank_leb a b = true \/ rank_leb b a = true.
Proof.
  unfold rank_leb.
  rewrite <- (Qcompare_antisym (combined_score a) (combined_score b)).
  destruct (combined_score a ?= combined_score b); simpl; auto.
  apply tie_leb_total.
Qed.

Lemma rank_leb_trans (a b c : FusedEntry) :
  rank_leb a b = true -> rank_leb b c = true -> rank_leb a c = true.
Proof.
  unfold rank_leb.
  destruct (Qcompare_spec (combined_score a) (combined_score b))
    as [Eab | Lab | Gab]; [ | discriminate | ];
  destruct (Qcompare_spec (combined_score b) (combined_score c))
    as [Ebc | Lbc | Gbc]; try discriminate; intros Hab Hbc.
  - assert (E : combined_score a == combined_score c)
      by (rewrite Eab; exact Ebc).
    apply Qeq_alt in E. rewrite E. eapply tie_leb_trans; eauto.
  - assert (G : combined_score c < combined_score a)
      by (rewrite Eab; exact Gbc).
    apply Qgt_alt in G. now rewrite G.
  - assert (G : combined_score c < combined_score a)
      by (rewrite <- Ebc; exact Gab).
    apply Qgt_alt in G. now rewrite G.
  - assert (G : combined_score c < combined_score a)
      by (eapply Qlt_trans; eauto).
    apply Qgt_alt in G. now rewrite G.
Qed.

Lemma rank_leb_ranked_before (a b : FusedEntry) :
  rank_leb a b = true -> ranked_before a b.
Proof.
  unfold rank_leb, ranked_before.
  destruct (Qcompare_spec (combined_score a) (combined_score b))
    as [E | L | G]; [ | discriminate | ]; intros H.
  - split; [rewrite E; apply Qle_refl | intros _].
    unfold tie_leb in H. apply orb_true_iff in H.
    destruct H as [H | H].
    + left. now apply Nat.ltb_lt.
    + right. apply andb_true_iff in H. destruct H as [Hp Hid].
      split; [now apply Nat.eqb_eq | ].
      unfold id_leb in Hid.
      destruct (String_as_OT.compare (dedup_key a) (dedup_key b));
        congruence.
  - split; [apply Qlt_le_weak; exact G | intros E].
    rewrite E in G. now apply Qlt_irrefl in G.
Qed.

Lemma insert_entry_perm (e : FusedEntry) (l : list FusedEntry) :
  Permutation (e :: l) (insert_entry e l).
Proof.
  induction l as [| x rest IH]; simpl.
  - apply Permutation_refl.
  - destruct (rank_leb e x).
    + apply Permutation_refl.
    + eapply perm_trans; [apply perm_swap | ].
      apply perm_skip. exact IH.
Qed.

Lemma sort_entries_perm (l : list FusedEntry) :
  Permutation l (sort_entries l).
Proof.
  induction l as [| e rest IH]; simpl.
  - apply perm_nil.
  - eapply perm_trans; [apply perm_skip; exact IH | ].
    apply insert_entry_perm.
Qed.

Lemma insert_entry_sorted (e : FusedEntry) (l : list FusedEntry) :
  StronglySorted leb_rel l -> StronglySorted leb_rel (insert_entry e l).
Proof.
  induction 1 as [| x rest Hrest IH Hx]; simpl.
  - repeat constructor.
  - destruct (rank_leb e x) eqn:E.
    + constructor; [constructor; assumption | ].
      constructor; [exact E | ].
      eapply Forall_impl; [ | exact Hx].
      intros y Hy. eapply rank_leb_trans; eauto.
    + constructor; [exact IH | ].
      assert (Hxe : leb_rel x e).
      { destruct (rank_leb_total e x) as [T | T]; [congruence | exact T]. }
      eapply Permutation_Forall; [apply insert_entry_perm | ].
      constructor; assumption.
Qed.

Lemma sort_entries_sorted (l : list FusedEntry) :
  StronglySorted leb_rel (sort_entries l).
Proof.
  induction l as [| e rest IH]; simpl.
  - constructor.
  - apply insert_entry_sorted. exact IH.
Qed.

Lemma StronglySorted_firstn {A : Type} (R : A -> A -> Prop) (n : nat)
  (l : list A) :
  StronglySorted R l -> StronglySorted R (firstn n l).
Proof.
  intros H. revert n.
  induction H as [| x rest Hrest IH Hx]; intros [| n]; simpl;
    try constructor.
  - apply IH.
  - rewrite <- (firstn_skipn n rest) in Hx.
    apply Forall_app in Hx. tauto.
Qed.

Lemma StronglySorted_impl {A : Type} (R S : A -> A -> Prop) (l : list A) :
  (forall a b, R a b -> S a b) -> StronglySorted R l -> StronglySorted S l.
Proof.
  intros HRS. induction 1 as [| x rest Hrest IH Hx]; constructor; auto.
  eapply Forall_impl; [ | exact Hx]. auto.
Qed.

Lemma NoDup_firstn {A : Type} (n : nat) (l : list A) :
  NoDup l -> NoDup (firstn n l).
Proof.
  intros H. rewrite <- (firstn_skipn n l) in H.
  eapply NoDup_app_remove_r; eauto.
Qed.

Lemma seen_spec (key : string) (seen : list string) :
  existsb (String.eqb key) seen = true <-> In key seen.
Proof.
  rewrite existsb_exists. split.
  - intros [x [Hin Heq]]. apply String.eqb_eq in Heq. now subst.
  - intros Hin. exists key. split; [exact Hin | apply String.eqb_refl].
Qed.

Lemma first_hits_keys (hits : list RetrievalHit) :
  forall seen,
    NoDup (map identifier (first_hits seen hits))
    /\ (forall key,
          In key (map identifier (first_hits seen hits)) ->
          ~ In key seen /\ In key (map identifier hits)).
Proof.
  induction hits as [| h rest IH]; intros seen; simpl.
  - split; [constructor | intros key []].
  - destruct (existsb (String.eqb (identifier h)) seen) eqn:E.
    + destruct (IH seen) as [Hnd Hin]. split; [exact Hnd | ].
      intros key Hkey. destruct (Hin key Hkey). auto.
    + destruct (IH (identifier h :: seen)) as [Hnd Hin]. split.
      * simpl. constructor; [ | exact Hnd].
        intros Hkey. destruct (Hin _ Hkey) as [Hout _].
        apply Hout. left. reflexivity.
      * simpl. intros key [<- | Hkey].
        -- split; [ | auto].
           intros Hseen. apply seen_spec in Hseen. congruence.
        -- destruct (Hin key Hkey) as [Hout Hrest].
           split; [ | auto]. intros Hseen. apply Hout. now right.
Qed.

Lemma kept_hits_keys (keep : RetrievalHit -> bool)
  (hits : list RetrievalHit) :
  NoDup (map identifier hits) ->
  NoDup (map identifier (filter keep hits)).
Proof.
  intros Hkeys.
  induction hits as [| h rest IH]; simpl in *; [constructor | ].
  apply NoDup_cons_iff in Hkeys. destruct Hkeys as [Hfresh Hrest].
  destruct (keep h); simpl; [ | auto].
  apply NoDup_cons; [ | auto].
  intros Hin. apply Hfresh. apply in_map_iff in Hin.
  destruct Hin as [other [Hkey Hin]]. apply filter_In in Hin.
  apply in_map_iff. exists other. tauto.
Qed.

Lemma has_hit_spec (key : string) (hits : list RetrievalHit) :
  has_hit key hits = true <-> In key (map identifier hits).
Proof.
  unfold has_hit. rewrite existsb_exists, in_map_iff. split.
  - intros [h [Hin Heq]]. apply String.eqb_eq in Heq. eauto.
  - intros [h [Heq Hin]]. exists h. split; [exact Hin | ].
    now apply String.eqb_eq.
Qed.

Lemma graph_entry_key (w_v w_g : Q) (vector graph : list RetrievalHit)
  (g : RetrievalHit) :
  dedup_key (graph_entry w_v w_g vector graph g) = identifier g.
Proof.
  unfold graph_entry. destruct (find_hit (identifier g) vector); reflexivity.
Qed.

Lemma fused_entries_keys (w_v w_g : Q) (vector graph : list RetrievalHit) :
  NoDup (map dedup_key (fused_entries w_v w_g vector graph)).
Proof.
  unfold fused_entries. rewrite map_app, !map_map.
  rewrite (map_ext _ identifier (graph_entry_key w_v w_g vector graph)).
  change (fun x => dedup_key (vector_entry vector x)) with identifier.
  destruct (first_hits_keys graph []) as [Hg Hgin].
  destruct (first_hits_keys vector []) as [Hv _].
  apply NoDup_app.
  - exact Hg.
  - apply kept_hits_keys. exact Hv.
  - intros key Hkey Hin. apply in_map_iff in Hin.
    destruct Hin as [v [<- Hv']]. apply filter_In in Hv'.
    destruct Hv' as [_ Hout]. apply negb_true_iff in Hout.
    destruct (Hgin _ Hkey) as [_ Hgraph].
    apply has_hit_spec in Hgraph. congruence.
Qed.

(** C9.  Whatever the hits, the weights and the limit, no two entries of
    the fused result share a dedup key, and every entry stands before all
    the entries after it: its combined score is at least theirs, and on
    equal scores the graph entry comes first, then the lexically smaller
    identifier. *)
Theorem fuse_no_duplicate_keys_and_ranked :
  forall (w_v w_g : Q) (vector graph : list RetrievalHit) (limit : nat),
    NoDup (map dedup_key (fuse w_v w_g vector graph limit))
    /\ StronglySorted ranked_before (fuse w_v w_g vector graph limit).
Proof.
  intros w_v w_g vector graph limit. unfold fuse. split.
  - rewrite <- firstn_map. apply NoDup_firstn.
    eapply Permutation_NoDup;
      [apply Permutation_map; apply sort_entries_perm | ].
    apply fused_entries_keys.
  - apply StronglySorted_firstn.
    eapply StronglySorted_impl; [ | apply sort_entries_sorted].
    exact rank_leb_ranked_before.
Qed.

(** The scenario of the spec: the order is C, A, B, and A's score is the
    weighted combination of its two normalised scores. *)
Example fuse_scenario :
  map (fun e => (dedup_key e, Qred (combined_score e)))
    (fuse (1 # 2) (1 # 2) scenario_vector scenario_graph 10)
  = [("C", 1); ("A", 1 # 2); ("B", 0)].
Proof. reflexivity. Qed.

End Fusion.

(** * Further properties of agent/api.py *)

(** ** Requests and sessions *)

Section Sessions.

Context {Store : Type} (C : Collaborators Store).

Lemma last_opt_snoc {A : Type} (l : list A) (x : A) :
  last_opt (l ++ [x]) = Some x.
Proof. unfold last_opt. now rewrite rev_app_distr. Qed.

Lemma no_user_filter (l : list OpenAIMessage) :
  existsb (fun msg => role msg =? "user") l = false ->
  filter (fun msg => role msg =? "user") l = [].
Proof.
  induction l as [| m l IH]; simpl; [reflexivity | ].
  intros H. apply orb_false_iff in H. destruct H as [Hm Hl].
  rewrite Hm. auto.
Qed.

(** X1.  The conversion of a compatibility request returns the content of
    the last message with the user role, whatever stands before it and
    whatever messages of other roles follow it. *)
Theorem convert_returns_latest_user_message :
  forall (request : OpenAIChatRequest) (earlier later : list OpenAIMessage)
    (latest : OpenAIMessage),
    messages request = (earlier ++ latest :: later)%list ->
    role latest = "user" ->
    existsb (fun msg => role msg =? "user") later = false ->
    convert_openai_to_internal request
    = inr (content latest, user request).
Proof.
  intros request earlier later latest Hmsgs Hrole Hlater.
  unfold convert_openai_to_internal. rewrite Hmsgs, filter_app. simpl.
  rewrite Hrole. simpl. rewrite (no_user_filter later Hlater).
  now rewrite last_opt_snoc.
Qed.

(** X2.  A request that names a session the store knows is served under
    that session: the only call is the lookup, nothing is created. *)
Theorem known_session_is_resumed :
  forall (request : ChatRequest) (w : World Store) (sid : string)
    (s1 : Store) (field : string * PyVal) (fields : Session),
    session_id request = Some sid ->
    sid <> "" ->
    get_session C (store w) sid = (s1, inr (Some (field :: fields))) ->
    get_or_create_session C request w
    = ({| store := s1; trace := (trace w ++ [GetSession sid])%list |},
       inr sid).
Proof.
  intros request w sid s1 field fields Hsid Hne Hget.
  unfold get_or_create_session. rewrite Hsid.
  destruct sid as [| c sid]; [contradiction | ]. cbn [truthy_str].
  unfold bind, call_get_session, calling. rewrite Hget. reflexivity.
Qed.

(** X3.  A session identifier that does not resolve is no error: when the
    lookup returns nothing, the request is handled as a request without
    identifier from then on, by creating a session for the request's user
    and metadata.  An absent or empty identifier is not even looked up. *)
Theorem unknown_session_is_replaced :
  forall (request : ChatRequest) (w : World Store),
    (truthy_str (session_id request) = None ->
     get_or_create_session C request w
     = call_create_session C (user_id request) (metadata request) w)
    /\ (forall (sid : string) (s1 : Store) (found : option Session),
          truthy_str (session_id request) = Some sid ->
          get_session C (store w) sid = (s1, inr found) ->
          found = None \/ found = Some [] ->
          get_or_create_session C request w
          = call_create_session C (user_id request) (metadata request)
              {| store := s1; trace := (trace w ++ [GetSession sid])%list |}).
Proof.
  intros request w. unfold get_or_create_session. split.
  - intros ->. reflexivity.
  - intros sid s1 found -> Hget Hfound.
    unfold bind, call_get_session, calling at 1. rewrite Hget.
    destruct Hfound as [-> | ->]; reflexivity.
Qed.

(** X4.  [/sessions/{id}] answers a missing session with a 404 that
    reaches the caller as a 404, a failing store with a 500 that carries
    the failure, and a session that exists with its row. *)
Theorem get_session_info_outcomes :
  forall (sid : string) (w : World Store),
    let looked_up :=
      {| store := fst (get_session C (store w) sid);
         trace := (trace w ++ [GetSession sid])%list |} in
    get_session_info C sid w
    = match snd (get_session C (store w) sid) with
      | inr (Some (field :: fields)) => (looked_up, inr (field :: fields))
      | inr _ =>
          (looked_up, inl (HTTPException 404 "Session not found"))
      | inl (HTTPException code detail) =>
          (looked_up, inl (HTTPException code detail))
      | inl (Exception text) =>
          ({| store := store looked_up;
              trace := (trace looked_up
                        ++ [LogError
                              ("Session retrieval failed: " ++ text)])%list |},
           inl (HTTPException 500 text))
      end.
Proof.
  intros sid w looked_up. subst looked_up.
  unfold get_session_info, bind, call_get_session, calling.
  destruct (get_session C (store w) sid) as [s1 [[code detail | text] | found]];
    cbn [fst snd]; try reflexivity.
  destruct found as [[| field fields] | ]; reflexivity.
Qed.

End Sessions.

Lemma convert_returns_latest_user_message_witness :
  convert_openai_to_internal
    {| model := "gpt-4o-mini";
       messages := [Script.user_says "first"; Script.user_says "second";
                    {| role := "assistant"; content := "an answer" |}];
       stream := false;
       user := None |}
  = inr ("second", None).
Proof.
  exact (convert_returns_latest_user_message
           {| model := "gpt-4o-mini";
              messages := [Script.user_says "first";
                           Script.user_says "second";
                           {| role := "assistant";
                              content := "an answer" |}];
              stream := false;
              user := None |}
           [Script.user_says "first"]
           [{| role := "assistant"; content := "an answer" |}]
           (Script.user_says "second") eq_refl eq_refl eq_refl).
Defined.

Lemma known_session_is_resumed_witness :
  get_or_create_session (Cases.one_session Script.happy)
    (Cases.resume "q") Script.fresh
  = ({| store := 0; trace := [GetSession "session-1"] |}, inr "session-1").
Proof.
  apply (known_session_is_resumed (Cases.one_session Script.happy)
           (Cases.resume "q") Script.fresh "session-1" 0
           ("id", VStr "session-1") []).
  - reflexivity.
  - discriminate.
  - reflexivity.
Defined.

Lemma unknown_session_is_replaced_witness :
  get_or_create_session (Cases.one_session Script.happy)
    (Cases.stale "q") Script.fresh
  = ({| store := 0;
        trace := [GetSession "session-0";
                  CreateSession (Some "alice") [("client", VStr "cli")]] |},
     inr "session-2").
Proof.
  exact (proj2 (unknown_session_is_replaced (Cases.one_session Script.happy)
                  (Cases.stale "q") Script.fresh)
           "session-0" 0 None eq_refl eq_refl (or_introl eq_refl)).
Defined.

(** ** Start-up, shut-down and health *)

Section Health.

Context {Store : Type} (I : Infrastructure Store).

(** X5.  [/health] reports "healthy" exactly when both connection tests
    pass, "unhealthy" exactly when both fail and "degraded" exactly when
    one of them passes, always with the two test results and a true
    [llm_connection]; when a test raises, the caller gets a 500 whose
    detail is the fixed text, not the failure. *)
Theorem health_check_classifies_connections :
  forall w : World Store,
    match snd (health_check I w) with
    | inr report =>
        (status report = "healthy"
         <-> database report = true /\ graph_database report = true)
        /\ (status report = "unhealthy"
            <-> database report = false /\ graph_database report = false)
        /\ (status report = "degraded"
            <-> database report <> graph_database report)
        /\ llm_connection report = true
        /\ exists s1 s2,
             test_connection I (store w) = (s1, inr (database report))
             /\ test_graph_connection I s1
                = (s2, inr (graph_database report))
    | inl e => e = HTTPException 500 "Health check failed"
    end.
Proof.
  intros w. unfold health_check, try_except, bind, performing, ret,
    logger_error, emit, raise.
  destruct (test_connection I (store w)) as [s1 [e | db]] eqn:E1;
    cbn [store trace fst snd]; [reflexivity | ].
  destruct (test_graph_connection I s1) as [s2 [e | graph]] eqn:E2;
    cbn [store trace fst snd]; [reflexivity | ].
  cbn [status database graph_database llm_connection].
  split; [ | split; [ | split; [ | split]]].
  - destruct db, graph; simpl; intuition congruence.
  - destruct db, graph; simpl; intuition congruence.
  - destruct db, graph; simpl; intuition congruence.
  - reflexivity.
  - exists s1, s2. auto.
Qed.

(** X6.  Shutting down never raises: a failure to close the database is
    logged and the graph connection is then not closed.  Whenever starting
    up raises, its last effect is the log of that exception as a start-up
    failure; when its four calls return it does not raise, and a
    connection test that answers false only logs. *)
Theorem lifespan_failures :
  forall w : World Store,
    snd (lifespan_shutdown I w) = inr tt
    /\ (forall s1 e,
          close_database I (store w) = (s1, inl e) ->
          lifespan_shutdown I w
          = ({| store := s1;
                trace := (trace w
                          ++ [LogError ("Shutdown error: " ++ str e)])%list |},
             inr tt))
    /\ (forall e,
          snd (lifespan_startup I w) = inl e ->
          exists before,
            trace (fst (lifespan_startup I w))
            = (before ++ [LogError ("Startup failed: " ++ str e)])%list)
    /\ (forall s1 s2 s3 s4 db_ok graph_ok,
          initialize_database I (store w) = (s1, inr tt) ->
          initialize_graph I s1 = (s2, inr tt) ->
          test_connection I s2 = (s3, inr db_ok) ->
          test_graph_connection I s3 = (s4, inr graph_ok) ->
          lifespan_startup I w
          = ({| store := s4;
                trace :=
                  (trace w
                   ++ (if db_ok then []
                       else [LogError "Database connection failed"])
                   ++ (if graph_ok then []
                       else [LogError
                               "Graph database connection failed"]))%list |},
             inr tt)).
Proof.
  intros w. split; [ | split; [ | split]].
  - unfold lifespan_shutdown, try_except, bind, performing, logger_error,
      emit.
    destruct (close_database I (store w)) as [s1 [e | []]];
      cbn [store trace fst snd]; [reflexivity | ].
    destruct (close_graph I s1) as [s2 [e | []]]; reflexivity.
  - intros s1 e H.
    unfold lifespan_shutdown, try_except, bind, performing, logger_error,
      emit.
    rewrite H. reflexivity.
  - intros e. unfold lifespan_startup, try_except, bind, performing,
      logger_error, emit, raise, ret.
    destruct (initialize_database I (store w)) as [s1 [e1 | []]];
      cbn [store trace fst snd].
    { intros H. inversion H; subst. eauto. }
    destruct (initialize_graph I s1) as [s2 [e2 | []]];
      cbn [store trace fst snd].
    { intros H. inversion H; subst. eauto. }
    destruct (test_connection I s2) as [s3 [e3 | db_ok]];
      cbn [store trace fst snd].
    { intros H. inversion H; subst. eauto. }
    destruct (test_graph_connection I s3) as [s4 [e4 | graph_ok]];
      cbn [store trace fst snd].
    { intros H. inversion H; subst. eauto. }
    destruct db_ok, graph_ok; cbn; discriminate.
  - intros s1 s2 s3 s4 db_ok graph_ok H1 H2 H3 H4.
    unfold lifespan_startup, try_except, bind, performing, logger_error,
      emit, raise, ret.
    rewrite H1. cbn [store trace]. rewrite H2. cbn [store trace].
    rewrite H3. cbn [store trace]. rewrite H4. cbn [store trace].
    destruct db_ok, graph_ok; cbn; rewrite ?app_nil_r, <- ?app_assoc;
      reflexivity.
Qed.

End Health.

Lemma lifespan_failures_witness :
  lifespan_startup (Cases.connections true false) Script.fresh
  = ({| store := 0;
        trace := [LogError "Graph database connection failed"] |},
     inr tt).
Proof.
  exact (proj2 (proj2 (proj2 (lifespan_failures
                                (Cases.connections true false)
                                Script.fresh)))
           0 0 0 0 true false eq_refl eq_refl eq_refl eq_refl).
Defined.

(** ** The agent runner *)

Section Runner.

Context {Store : Type} (C : Collaborators Store).

Lemma no_writes (new : list Effect) :
  Forall not_a_write new -> writes new = [].
Proof.
  induction 1 as [| e rest He _ IH]; simpl; [reflexivity | ].
  destruct e; simpl in *; auto; contradiction.
Qed.

(** X7.  Without persistence, [execute_agent] is stateless and total: it
    never calls [add_message] and never raises, whatever the store and the
    agent do; a failure comes back as the generic error message with no
    tool calls. *)
Theorem stateless_run_never_writes_nor_raises :
  forall (message session_id : string) (user_id : option string)
    (w : World Store),
    writes (since w (fst (execute_agent C message session_id user_id false w)))
    = []
    /\ match snd (execute_agent_try C message session_id user_id false w) with
       | inr answer =>
           snd (execute_agent C message session_id user_id false w)
           = inr answer
       | inl e =>
           snd (execute_agent C message session_id user_id false w)
           = inr ("I encountered an error while processing your request: "
                  ++ str e, [])
       end.
Proof.
  intros message session_id user_id w. split.
  - assert (H : adds not_a_write
                  (execute_agent C message session_id user_id false)).
    { unfold execute_agent, execute_agent_try, execute_agent_except,
        get_conversation_context, call_get_session_messages, call_agent_run,
        logger_error.
      repeat adds_step; exact I. }
    destruct (H w) as [new [E F]].
    rewrite (since_app _ _ _ E). now apply no_writes.
  - unfold execute_agent, try_except.
    destruct (execute_agent_try C message session_id user_id false w)
      as [w1 [e | answer]]; reflexivity.
Qed.

(** X8.  With a store that accepts every write, [execute_agent] never
    raises, with or without persistence: every failure of the context
    read or of the agent is absorbed into an answer. *)
Theorem execute_agent_never_raises_when_writes_succeed :
  forall (message session_id : string) (user_id : option string)
    (save_conversation : bool) (w : World Store),
    (forall s sid r c md, snd (add_message C s sid r c md) = inr tt) ->
    exists answer,
      snd (execute_agent C message session_id user_id save_conversation w)
      = inr answer.
Proof.
  intros message session_id user_id save_conversation w Hwrite.
  assert (Hsave :
    forall sid u a md w0,
      snd (save_conversation_turn C sid u a md w0) = inr tt).
  { intros sid u a md w0.
    unfold save_conversation_turn, bind, call_add_message, calling.
    match goal with
    | |- context [add_message C ?s ?x ?r ?c ?m] =>
        pose proof (Hwrite s x r c m) as H1;
        destruct (add_message C s x r c m) as [s1 [e | []]];
        simpl in H1; [discriminate | ]
    end.
    cbn [store trace].
    match goal with
    | |- context [add_message C ?s ?x ?r ?c ?m] =>
        pose proof (Hwrite s x r c m) as H2;
        destruct (add_message C s x r c m) as [s2 [e | []]];
        simpl in H2; [discriminate | reflexivity]
    end. }
  assert (Hexcept :
    forall e w0, exists answer,
      snd (execute_agent_except C message session_id save_conversation e w0)
      = inr answer).
  { intros e w0. unfold execute_agent_except, bind, logger_error, emit.
    destruct save_conversation.
    - match goal with
      | |- context [save_conversation_turn C ?a ?b ?c ?d ?w1] =>
          pose proof (Hsave a b c d w1) as H;
          destruct (save_conversation_turn C a b c d w1) as [w2 [x | []]];
          simpl in H; [discriminate | ]
      end.
      eexists. reflexivity.
    - eexists. reflexivity. }
  unfold execute_agent, try_except.
  destruct (execute_agent_try C message session_id user_id
              save_conversation w) as [w1 [e | answer]].
  - apply Hexcept.
  - eexists. reflexivity.
Qed.

(** X9.  When a run with persistence succeeds, both stored messages carry
    the caller's user id and, as [tool_calls], the number of tool calls
    that the run returns to the caller. *)
Theorem stored_tool_count_is_returned_tool_count :
  forall (message session_id : string) (user_id : option string)
    (w w' : World Store) (response : string) (tools : list ToolCall),
    execute_agent_try C message session_id user_id true w
    = (w', inr (response, tools)) ->
    execute_agent C message session_id user_id true w
    = (w', inr (response, tools))
    /\ writes (since w w')
       = [AddMessage session_id "user" message
            (turn_metadata user_id tools);
          AddMessage session_id "assistant" response
            (turn_metadata user_id tools)].
Proof.
  intros message session_id user_id w w' response tools E. split.
  - unfold execute_agent, try_except. now rewrite E.
  - apply execute_agent_try_returns in E.
    destruct E as (s1 & rows & s2 & result & s3 & E). cbn zeta in E.
    destruct E as (_ & _ & _ & _ & Hanswer & Ht).
    inversion Hanswer; subst. rewrite (since_app _ _ _ Ht). reflexivity.
Qed.

(** X10.  [/chat] answers a request that names a known session under that
    session: the response carries the identifier the request gave, no
    session is created, and every call the run makes names that
    session. *)
Theorem chat_keeps_known_session :
  forall (request : ChatRequest) (w w' : World Store) (sid : string)
    (s1 : Store) (field : string * PyVal) (fields : Session)
    (response : ChatResponse),
    session_id request = Some sid ->
    sid <> "" ->
    get_session C (store w) sid = (s1, inr (Some (field :: fields))) ->
    chat C request w = (w', inr response) ->
    resp_session_id response = sid
    /\ Forall (within_session sid) (since w w').
Proof.
  intros request w w' sid s1 field fields response Hsid Hne Hget Hchat.
  unfold chat, try_except in Hchat. unfold bind at 1 in Hchat.
  rewrite (known_session_is_resumed C request w sid s1 field fields
             Hsid Hne Hget) in Hchat.
  unfold bind at 1 in Hchat.
  destruct (adds_execute_agent_within C (message request) sid
              (user_id request) true
              {| store := s1; trace := (trace w ++ [GetSession sid])%list |})
    as [new [E F]].
  destruct (execute_agent C (message request) sid (user_id request) true _)
    as [w2 [e | answer]].
  - unfold bind, logger_error, emit, raise in Hchat. discriminate.
  - unfold ret in Hchat. inversion Hchat; subst. split; [reflexivity | ].
    cbn [fst trace] in E.
    erewrite since_app;
      [ | rewrite E; rewrite <- app_assoc; reflexivity ].
    constructor; [simpl; auto | exact F].
Qed.

End Runner.

Lemma execute_agent_never_raises_when_writes_succeed_witness :
  exists answer,
    snd (execute_agent (Script.collaborators Script.out_of_quota)
           "q" "s" None true Script.fresh)
    = inr answer.
Proof.
  apply (execute_agent_never_raises_when_writes_succeed
           (Script.collaborators Script.out_of_quota)).
  intros s sid r c md. reflexivity.
Defined.

Lemma stored_tool_count_is_returned_tool_count_witness :
  writes
    (since Script.fresh
       (fst (execute_agent_try (Script.collaborators Script.happy)
               "q" "s" (Some "alice") true Script.fresh)))
  = [AddMessage "s" "user" "q" [("user_id", VStr "alice");
                                ("tool_calls", VInt 1)];
     AddMessage "s" "assistant" "42" [("user_id", VStr "alice");
                                      ("tool_calls", VInt 1)]].
Proof.
  exact (proj2 (stored_tool_count_is_returned_tool_count
                  (Script.collaborators Script.happy) "q" "s"
                  (Some "alice") Script.fresh _ "42"
                  (snd Script.answer_42_returned) eq_refl)).
Defined.

Lemma chat_keeps_known_session_witness :
  resp_session_id
    {| resp_message := "42";
       resp_session_id := "session-1";
       resp_tools_used := snd Script.answer_42_returned;
       resp_metadata := [("search_type", VStr "hybrid")] |}
  = "session-1"
  /\ Forall (within_session "session-1")
       (since Script.fresh
          (fst (chat (Cases.one_session Script.happy) (Cases.resume "q")
                  Script.fresh))).
Proof.
  apply (chat_keeps_known_session (Cases.one_session Script.happy)
           (Cases.resume "q") Script.fresh _ "session-1" 0
           ("id", VStr "session-1") []).
  - reflexivity.
  - discriminate.
  - reflexivity.
  - reflexivity.
Defined.

(** ** The compatibility endpoint, further *)

Section CompatibilityFailures.

Context {Store : Type} (C : Collaborators Store).

Lemma prefix_occurs (needle haystack : string) :
  String.prefix needle haystack = true <->
  exists after, haystack = needle ++ after.
Proof.
  revert haystack. induction needle as [| c needle IH]; intros haystack.
  - simpl. split; [intros _; exists haystack; reflexivity | ].
    intros _. destruct haystack; reflexivity.
  - destruct haystack as [| d haystack]; simpl.
    + split; [discriminate | intros [after H]; discriminate].
    + destruct (Ascii.ascii_dec c d) as [-> | Hne].
      * rewrite IH. split; intros [after H]; exists after.
        -- now rewrite H.
        -- now inversion H.
      * split; [discriminate | ].
        intros [after H]. inversion H. congruence.
Qed.

(** The test [needle in haystack] of the model is the occurrence of
    [needle] in [haystack]. *)
Lemma contains_occurs (needle haystack : string) :
  contains needle haystack = true <-> occurs_in needle haystack.
Proof.
  unfold occurs_in. induction haystack as [| d haystack IH].
  - change (contains needle "")
      with (if String.prefix needle "" then true else false).
    destruct (String.prefix needle "") eqn:E.
    + split; [intros _ | reflexivity].
      apply prefix_occurs in E. destruct E as [after E].
      exists "", after. exact E.
    + split; [discriminate | ].
      intros [before [after H]].
      destruct before; [ | discriminate].
      assert (P : String.prefix needle "" = true)
        by (apply prefix_occurs; exists after; exact H).
      congruence.
  - change (contains needle (String d haystack))
      with (if String.prefix needle (String d haystack) then true
            else contains needle haystack).
    destruct (String.prefix needle (String d haystack)) eqn:E.
    + split; [intros _ | reflexivity].
      apply prefix_occurs in E. destruct E as [after E].
      exists "", after. exact E.
    + rewrite IH. split.
      * intros [before [after H]]. exists (String d before), after.
        simpl. now rewrite H.
      * intros [before [after H]].
        destruct before as [| b before].
        -- assert (P : String.prefix needle (String d haystack) = true)
             by (apply prefix_occurs; exists after; exact H).
           congruence.
        -- inversion H. eauto.
Qed.

Lemma quota_test (e : PyExn) :
  contains "insufficient_quota" (str e) || contains "429" (str e) = true
  <-> mentions_quota e.
Proof.
  unfold mentions_quota.
  rewrite orb_true_iff, !contains_occurs. reflexivity.
Qed.

(** X11.  When the session cannot be created, the handler of
    [/v1/chat/completions] answers with the fixed cooldown message and a
    success status if the text of the failure contains
    "insufficient_quota" or "429" anywhere, and raises a 500 carrying the
    text otherwise; either way the agent is not called and nothing is
    written. *)
Theorem session_failure_is_cooldown_or_500 :
  forall (request : OpenAIChatRequest) (w : World Store) (s1 : Store)
    (e : PyExn),
    let md := [("openai_format", VBool true);
               ("model", VStr (model request))] in
    let w' :=
      {| store := s1;
         trace :=
           (trace w
            ++ [CreateSession (user request) md;
                LogError ("Chat completions endpoint failed: "
                          ++ str e)])%list |} in
    has_user_message request = true ->
    create_session C (store w) (user request) md = (s1, inl e) ->
    (mentions_quota e ->
     chat_completions C request w
     = (w', inr (Completed
                   (create_openai_response (fresh_response_id C)
                      (time_time C) cooldown_apology "error-session"
                      (model request) false))))
    /\ (~ mentions_quota e ->
        chat_completions C request w
        = (w', inl (HTTPException 500 (str e)))).
Proof.
  intros request w s1 e md w' Huser Hcreate.
  destruct (has_user_message_converts request Huser) as [user_message Hconv].
  assert (E : chat_completions C request w
              = (response <- completions_except C request None e ;;
                 ret (Completed response))
                  {| store := s1;
                     trace := (trace w
                               ++ [CreateSession (user request) md])%list |}).
  { unfold chat_completions.
    rewrite (completions_session_creates C request w user_message Hconv).
    fold md. rewrite Hcreate. reflexivity. }
  rewrite E. unfold completions_except, bind, logger_error, emit.
  cbn [store trace]. subst w'. rewrite <- app_assoc. cbn [app].
  split; intros H.
  - apply quota_test in H. rewrite H. reflexivity.
  - destruct (contains "insufficient_quota" (str e)
              || contains "429" (str e)) eqn:Q; [ | reflexivity].
    apply quota_test in Q. contradiction.
Qed.

(** X12.  Once the session of a non-streaming compatibility request is
    created and verified, the handler always answers with a success
    status and a [chat.completion] body with one choice that has stopped,
    whatever the agent and the store do afterwards. *)
Theorem non_streaming_completion_always_answers :
  forall (request : OpenAIChatRequest) (w : World Store) (s1 s2 : Store)
    (sid : string) (session : option Session),
    let md := [("openai_format", VBool true);
               ("model", VStr (model request))] in
    has_user_message request = true ->
    stream request = false ->
    create_session C (store w) (user request) md = (s1, inr sid) ->
    get_session C s1 sid = (s2, inr session) ->
    exists text,
      snd (chat_completions C request w)
      = inr (Completed
               (create_openai_response (fresh_response_id C) (time_time C)
                  text sid (model request) false)).
Proof.
  intros request w s1 s2 sid session md Huser Hstream Hcreate Hsession.
  destruct (has_user_message_converts request Huser) as [user_message Hconv].
  unfold chat_completions.
  rewrite (completions_session_creates C request w user_message Hconv).
  fold md. rewrite Hcreate.
  unfold completions_answer, call_get_session.
  unfold try_except at 1, bind at 1, bind at 1, bind at 1, calling at 1.
  cbn [store trace]. rewrite Hsession, Hstream. cbn [negb].
  destruct session as [[| field fields] | ];
    unfold try_except, bind, logger_error, emit, ret; cbn [store trace];
    match goal with
    | |- context [execute_agent C ?m ?s ?u ?b ?w0] =>
        destruct (execute_agent C m s u b w0) as [w2 [x | answer]]
    end; cbn [fst snd]; eexists; reflexivity.
Qed.

End CompatibilityFailures.

Lemma session_failure_is_cooldown_or_500_witness :
  snd (chat_completions (Cases.no_new_session "port 14290 is closed")
         (Script.ask "hi" false) Script.fresh)
  = inr (Completed
           (create_openai_response "chatcmpl-0a1b2c3d" 1700000000
              cooldown_apology "error-session" "gpt-4o-mini" false)).
Proof.
  refine (f_equal snd
            (proj1 (session_failure_is_cooldown_or_500
                      (Cases.no_new_session "port 14290 is closed")
                      (Script.ask "hi" false) Script.fresh 0
                      (Exception "port 14290 is closed") eq_refl eq_refl)
               _)).
  right. exists "port 1", "0 is closed". reflexivity.
Defined.

Lemma non_streaming_completion_always_answers_witness :
  exists text,
    snd (chat_completions (Script.collaborators Script.first_write_fails)
           (Script.ask "hi" false) Script.fresh)
    = inr (Completed
             (create_openai_response "chatcmpl-0a1b2c3d" 1700000000
                text "session-1" "gpt-4o-mini" false)).
Proof.
  apply (non_streaming_completion_always_answers
           (Script.collaborators Script.first_write_fails)
           (Script.ask "hi" false) Script.fresh 0 0 "session-1"
           (Some [("id", VStr "session-1")])); reflexivity.
Defined.

(** ** The streams, further *)

Section IterationOutcome.

Context {Store : Type}.

Variable on_text : string -> M Store unit.
Variable render : string -> list Effect.
Hypothesis on_text_renders :
  forall (text : string) (w : World Store),
    on_text text w
    = ({| store := store w; trace := (trace w ++ render text)%list |},
       inr tt).

Lemma stream_nodes_outcome (nodes : list Node) :
  forall (full : string) (w : World Store),
    stream_nodes on_text nodes full w
    = ({| store := store w;
          trace := (trace w
                    ++ flat_map render (fst (outcome_of_nodes nodes)))%list |},
       match snd (outcome_of_nodes nodes) with
       | Some e => inl e
       | None => inr (full ++ concat_all (fst (outcome_of_nodes nodes)))
       end).
Proof.
  induction nodes as [| node rest IH]; intros full [s t]; simpl.
  - unfold ret. now rewrite app_nil_r, append_empty_r.
  - unfold bind, stream_node.
    destruct (is_model_request_node node).
    + unfold bind.
      rewrite (stream_events_renders on_text render on_text_renders).
      destruct (node_error node) as [e | ].
      * unfold raise. reflexivity.
      * unfold ret. rewrite IH. cbn [store trace].
        destruct (outcome_of_nodes rest) as [texts failure]. cbn [fst snd].
        rewrite flat_map_app, app_assoc.
        destruct failure; [reflexivity | ].
        now rewrite concat_all_app, append_assoc.
    + unfold ret. apply IH.
Qed.

(** An iteration of the agent delivers the fragments streamed until the
    first exception, raises that exception if there is one and returns the
    concatenation of the fragments otherwise; it leaves the store alone. *)
Lemma iterate_agent_outcome (run : AgentRun) (w : World Store) :
  iterate_agent on_text run w
  = ({| store := store w;
        trace := (trace w
                  ++ flat_map render (fst (iteration_outcome run)))%list |},
     match snd (iteration_outcome run) with
     | Some e => inl e
     | None => inr (concat_all (fst (iteration_outcome run)))
     end).
Proof.
  unfold iterate_agent, iteration_outcome, bind.
  rewrite stream_nodes_outcome.
  destruct (outcome_of_nodes (run_nodes run)) as [texts [e | ]];
    cbn [fst snd]; [reflexivity | ].
  destruct (run_error run); reflexivity.
Qed.

End IterationOutcome.

Section StreamShapes.

Context {Store : Type} (C : Collaborators Store).

Lemma yielded_text_records (texts : list string) :
  yielded (map text_record texts)
  = map (fun text => Native (TextEvent text)) texts.
Proof. induction texts; simpl; congruence. Qed.

(** X13.  A run of the native stream that completes hands the transport
    the session record, one text record per fragment the agent streamed,
    one tools record when the agent's result holds tool calls and none
    otherwise, and the end record, in this order. *)
Theorem completed_native_stream_records :
  forall (request : ChatRequest) (session_id : string) (w w' : World Store),
    generate_stream_try C request session_id w = (w', inr tt) ->
    exists (s s' : Store) (rows : list MessageRow) (run : AgentRun),
      snd (get_session_messages C (store w) session_id 10) = inr rows
      /\ rag_agent_iter C s
           (build_full_prompt (message request) (turns_of rows))
           {| deps_session_id := session_id;
              deps_user_id := user_id request |}
         = (s', inr run)
      /\ yielded (since w (fst (generate_stream C request session_id w)))
         = native_records session_id (streamed_texts run)
             (extract_tool_calls (json_loads C) (run_result run)).
Proof.
  intros request session_id w w' H.
  assert (E : generate_stream C request session_id w = (w', inr tt))
    by (unfold generate_stream, try_except; now rewrite H).
  rewrite E. cbn [fst].
  apply generate_stream_try_returns in H.
  destruct H as (s1 & rows & s2 & s3 & run & H). cbn zeta in H.
  destruct H as (Hrows & _ & Hiter & _ & Ht).
  exists s2, s3, rows, run. rewrite Hrows. split; [reflexivity | ].
  split; [exact Hiter | ].
  rewrite (since_app _ _ _ Ht). rewrite !yielded_app, yielded_text_records.
  unfold native_records.
  destruct (extract_tool_calls (json_loads C) (run_result run));
    reflexivity.
Qed.

Lemma closes_bind (P : Effect -> Prop) (closing : list Effect) {A : Type}
  (m : M Store A) (k : A -> M Store unit) :
  adds P m -> (forall a, closes P closing (k a)) ->
  closes P closing (bind m k).
Proof.
  intros Hm Hk w. unfold bind.
  destruct (Hm w) as [new1 [E1 F1]].
  destruct (m w) as [w1 [e | a]]; simpl in E1.
  - exists new1. simpl. auto.
  - destruct (Hk a w1) as [new2 [F2 E2]].
    exists (new1 ++ new2)%list. split; [apply Forall_app; auto | ].
    destruct (snd (k a w1)); rewrite E2, E1, <- ?app_assoc; reflexivity.
Qed.

Lemma closes_with_two (P : Effect -> Prop) (a b : Effect) :
  closes P [a; b] (emit (Store := Store) a ;;; emit b).
Proof.
  intros w. exists []. split; [constructor | ].
  unfold bind, emit. cbn [fst snd trace]. now rewrite <- app_assoc.
Qed.

Lemma generate_openai_stream_try_closes (request : OpenAIChatRequest)
  (user_message session_id : string) (user_id : option string) :
  closes delta_or_silent
    [Yield (Chunk (openai_chunk (fresh_response_id C) (time_time C)
                     (model request) {| delta_content := None |}
                     (Some "stop")));
     Yield Done]
    (generate_openai_stream_try C request user_message user_id session_id).
Proof.
  unfold generate_openai_stream_try, get_conversation_context,
    call_get_session_messages, call_add_message, call_agent_iter.
  apply closes_bind; [repeat adds_step; exact I | intros context].
  apply closes_bind; [apply adds_calling; exact I | intros _].
  apply closes_bind; [apply adds_calling; exact I | intros run].
  apply closes_bind.
  { apply adds_iterate_agent. intros text. unfold openai_text, yield.
    destruct text; [apply adds_ret | apply adds_emit; reflexivity]. }
  intros full_response.
  apply closes_bind; [apply adds_calling; exact I | intros _].
  apply closes_with_two.
Qed.

Lemma yielded_delta_chunks (new : list Effect) :
  Forall delta_or_silent new ->
  forallb is_delta_chunk (yielded new) = true.
Proof.
  induction 1 as [| e rest He _ IH]; simpl; [reflexivity | ].
  destruct e; simpl in *; auto. now rewrite He.
Qed.

(** X14.  Every run of the compatibility stream, failed or not, hands the
    transport chunks that carry non-empty text and no finish reason, then
    one chunk whose finish reason is "stop", then the [DONE] record, and
    nothing after it.  When the run completes, the closing chunk is empty
    and has the identifier and the timestamp of the stream; when it raises,
    the closing chunk carries "Error: " and the text of the failure under
    an identifier and a timestamp that are read anew.  The generator itself
    never raises. *)
Theorem compatibility_stream_always_closes :
  forall (request : OpenAIChatRequest) (user_message session_id : string)
    (user_id : option string) (w : World Store),
    exists (deltas : list WireRecord) (closing : OpenAIChatResponse),
      generate_openai_stream C request user_message user_id session_id w
      = (fst (generate_openai_stream C request user_message user_id
                session_id w),
         inr tt)
      /\ yielded (since w (fst (generate_openai_stream C request
                                  user_message user_id session_id w)))
         = (deltas ++ [Chunk closing; Done])%list
      /\ forallb is_delta_chunk deltas = true
      /\ closing
         = match snd (generate_openai_stream_try C request user_message
                        user_id session_id w) with
           | inr _ =>
               openai_chunk (fresh_response_id C) (time_time C)
                 (model request) {| delta_content := None |} (Some "stop")
           | inl e =>
               openai_chunk (error_response_id C) (time_time_next C)
                 (model request)
                 {| delta_content := Some ("Error: " ++ str e) |}
                 (Some "stop")
           end.
Proof.
  intros request user_message session_id user_id w.
  destruct (generate_openai_stream_try_closes request user_message
              session_id user_id w) as [new [Hnew Htrace]].
  unfold generate_openai_stream, try_except.
  destruct (generate_openai_stream_try C request user_message user_id
              session_id w) as [w1 [e | []]]; cbn [fst snd] in Htrace |- *.
  - exists (yielded new),
      (openai_chunk (error_response_id C) (time_time_next C)
         (model request) {| delta_content := Some ("Error: " ++ str e) |}
         (Some "stop")).
    unfold bind, logger_error, yield, emit. cbn [fst snd store trace].
    split; [reflexivity | ].
    erewrite since_app;
      [ | cbn [trace]; rewrite Htrace, <- !app_assoc; reflexivity ].
    rewrite yielded_app. cbn [yielded flat_map app].
    repeat split. now apply yielded_delta_chunks.
  - exists (yielded new),
      (openai_chunk (fresh_response_id C) (time_time C) (model request)
         {| delta_content := None |} (Some "stop")).
    split; [reflexivity | ].
    rewrite (since_app _ _ _ Htrace), yielded_app.
    cbn [yielded flat_map app].
    repeat split. now apply yielded_delta_chunks.
Qed.

(** A guarded computation that opens with a record yields it first. *)
Lemma try_except_opens_with_emit {B : Type} (e : Effect)
  (k : unit -> M Store B) (handler : PyExn -> M Store B) (w : World Store) :
  (forall a, adds any_effect (k a)) ->
  (forall x, adds any_effect (handler x)) ->
  exists rest,
    trace (fst (try_except (bind (emit e) k) handler w))
    = (trace w ++ e :: rest)%list.
Proof.
  intros Hk Hh.
  pose proof (adds_try_except any_effect (k tt) handler (Hk tt) Hh
                {| store := store w; trace := (trace w ++ [e])%list |})
    as [new [E _]].
  unfold try_except in *. unfold bind, emit. exists new.
  rewrite E. cbn [trace]. now rewrite <- app_assoc.
Qed.

Lemma adds_get_or_create_session (request : ChatRequest) :
  adds not_a_yield (get_or_create_session C request).
Proof.
  unfold get_or_create_session, call_create_session, call_get_session.
  repeat adds_step; exact I.
Qed.

Lemma no_yields (new : list Effect) :
  Forall not_a_yield new -> yielded new = [].
Proof.
  induction 1 as [| e rest He _ IH]; simpl; [reflexivity | ].
  destruct e; simpl in *; auto; contradiction.
Qed.

Lemma generate_stream_never_raises (request : ChatRequest)
  (session_id : string) (w : World Store) :
  snd (generate_stream C request session_id w) = inr tt.
Proof.
  unfold generate_stream, try_except.
  destruct (generate_stream_try C request session_id w) as [w1 [e | []]];
    reflexivity.
Qed.

(** X15.  [/chat/stream] resolves the session before it streams: when the
    resolution fails, the failure is logged as the last effect, the store
    is left as the resolution left it, the caller gets a 500 carrying the
    failure and no record at all; otherwise nothing is logged before the
    stream, whose first record is the session record with the resolved
    identifier, and the handler does not raise. *)
Theorem chat_stream_opens_with_session :
  forall (request : ChatRequest) (w : World Store),
    match snd (get_or_create_session C request w) with
    | inl e =>
        chat_stream C request w
        = ({| store := store (fst (get_or_create_session C request w));
              trace :=
                (trace (fst (get_or_create_session C request w))
                 ++ [LogError ("Streaming chat failed: " ++ str e)])%list |},
           inl (HTTPException 500 (str e)))
        /\ yielded (since w (fst (chat_stream C request w))) = []
    | inr sid =>
        snd (chat_stream C request w) = inr tt
        /\ exists rest,
             since w (fst (chat_stream C request w))
             = (since w (fst (get_or_create_session C request w))
                ++ Yield (Native (SessionEvent sid)) :: rest)%list
             /\ yielded (since w (fst (get_or_create_session C request w)))
                = []
    end.
Proof.
  intros request w.
  destruct (adds_get_or_create_session request w) as [new [E F]].
  unfold chat_stream, bind, try_except.
  destruct (get_or_create_session C request w) as [w1 [e | sid]];
    cbn [fst snd] in E |- *.
  - unfold bind, logger_error, emit, raise. cbn [fst snd trace].
    split; [reflexivity | ].
    erewrite since_app; [ | rewrite E, <- app_assoc; reflexivity].
    rewrite yielded_app, (no_yields new F). reflexivity.
  - split.
    { apply generate_stream_never_raises. }
    unfold generate_stream, generate_stream_try, yield.
    match goal with
    | |- context [try_except (bind (emit ?e) ?k) ?h w1] =>
        destruct (try_except_opens_with_emit e k h w1) as [rest Hrest]
    end.
    + intros _.
      unfold get_conversation_context, call_get_session_messages,
        call_add_message, call_agent_iter.
      apply adds_bind; [repeat adds_step; exact I | intros context].
      apply adds_bind; [apply adds_calling; exact I | intros _].
      apply adds_bind; [apply adds_calling; exact I | intros run].
      apply adds_bind.
      { apply adds_iterate_agent. intros text. apply adds_emit. exact I. }
      intros full. repeat adds_step; exact I.
    + intros x. unfold logger_error. repeat adds_step; exact I.
    + exists rest. rewrite (since_app _ _ _ E).
      split; [ | exact (no_yields new F)].
      apply since_app. rewrite Hrest, E, <- app_assoc. reflexivity.
Qed.

End StreamShapes.

(** ** Agent failures in mid-stream *)

Section InterruptedStreams.

Context {Store : Type} (C : Collaborators Store).

(** X16.  When the agent raises in the middle of a native stream, the
    fragments streamed so far have been delivered, the stream ends with the
    error record that carries the failure, the user message stays written
    and neither a tools record nor the assistant message follows. *)
Theorem interrupted_native_stream :
  forall (request : ChatRequest) (session_id : string) (w : World Store)
    (s1 s2 s3 : Store) (rows : list MessageRow) (run : AgentRun)
    (texts : list string) (e : PyExn),
    let deps :=
      {| deps_session_id := session_id; deps_user_id := user_id request |} in
    let prompt := build_full_prompt (message request) (turns_of rows) in
    let user_md := [("user_id", opt_str (user_id request))] in
    get_session_messages C (store w) session_id 10 = (s1, inr rows) ->
    add_message C s1 session_id "user" (message request) user_md
    = (s2, inr tt) ->
    rag_agent_iter C s2 prompt deps = (s3, inr run) ->
    iteration_outcome run = (texts, Some e) ->
    generate_stream C request session_id w
    = ({| store := s3;
          trace :=
            (trace w
             ++ [Yield (Native (SessionEvent session_id));
                 GetSessionMessages session_id 10;
                 AddMessage session_id "user" (message request) user_md;
                 AgentIterCall prompt deps]
             ++ map text_record texts
             ++ [LogError ("Stream error: " ++ str e)%string;
                 Yield (Native (ErrorEvent ("Stream error: " ++ str e)%string))])%list |},
       inr tt).
Proof.
  intros request session_id w s1 s2 s3 rows run texts e deps prompt user_md
    Hrows Huser Hiter Hout.
  unfold generate_stream, generate_stream_try, get_conversation_context,
    call_get_session_messages, call_add_message, call_agent_iter.
  unfold try_except.
  unfold bind at 1. unfold yield at 1, emit at 1.
  unfold bind at 1. unfold bind at 1. unfold calling at 1.
  cbn [store trace]. rewrite Hrows. unfold ret at 1.
  fold (turns_of rows). fold prompt. fold deps.
  unfold bind at 1. unfold calling at 1. cbn [store trace].
  fold user_md. rewrite Huser.
  unfold bind at 1. unfold calling at 1. cbn [store trace]. rewrite Hiter.
  unfold bind at 1.
  rewrite (iterate_agent_outcome _ (fun text => [text_record text]))
    by reflexivity.
  rewrite Hout. cbn [fst snd store trace].
  unfold bind, logger_error, yield, emit. cbn [store trace].
  rewrite flat_map_one, <- !app_assoc. reflexivity.
Qed.

(** X17.  When the agent raises in the middle of a compatibility stream,
    the chunks of the non-empty fragments streamed so far have been
    delivered under the identifier and the timestamp of the stream, then
    comes one chunk that carries "Error: " and the failure with the finish
    reason "stop" under an identifier and a timestamp that are read anew,
    then [DONE]; the user message stays written and the assistant message
    is not. *)
Theorem interrupted_compatibility_stream :
  forall (request : OpenAIChatRequest) (user_message session_id : string)
    (user_id : option string) (w : World Store) (s1 s2 s3 : Store)
    (rows : list MessageRow) (run : AgentRun) (texts : list string)
    (e : PyExn),
    let deps :=
      {| deps_session_id := session_id; deps_user_id := user_id |} in
    let prompt := build_full_prompt user_message (turns_of rows) in
    let user_md := [("user_id", opt_str user_id)] in
    get_session_messages C (store w) session_id 10 = (s1, inr rows) ->
    add_message C s1 session_id "user" user_message user_md = (s2, inr tt) ->
    rag_agent_iter C s2 prompt deps = (s3, inr run) ->
    iteration_outcome run = (texts, Some e) ->
    generate_openai_stream C request user_message user_id session_id w
    = ({| store := s3;
          trace :=
            (trace w
             ++ [GetSessionMessages session_id 10;
                 AddMessage session_id "user" user_message user_md;
                 AgentIterCall prompt deps]
             ++ flat_map
                  (chunk_records (fresh_response_id C) (time_time C)
                     (model request))
                  texts
             ++ [LogError ("OpenAI streaming error: " ++ str e)%string;
                 Yield (Chunk (openai_chunk (error_response_id C)
                                 (time_time_next C) (model request)
                                 {| delta_content :=
                                      Some ("Error: " ++ str e)%string |}
                                 (Some "stop")));
                 Yield Done])%list |},
       inr tt).
Proof.
  intros request user_message session_id user_id w s1 s2 s3 rows run texts e
    deps prompt user_md Hrows Huser Hiter Hout.
  unfold generate_openai_stream, generate_openai_stream_try,
    get_conversation_context, call_get_session_messages, call_add_message,
    call_agent_iter.
  unfold try_except.
  unfold bind at 1. unfold bind at 1. unfold calling at 1.
  cbn [store trace]. rewrite Hrows. unfold ret at 1.
  fold (turns_of rows). fold prompt. fold deps.
  unfold bind at 1. unfold calling at 1. cbn [store trace].
  fold user_md. rewrite Huser.
  unfold bind at 1. unfold calling at 1. cbn [store trace]. rewrite Hiter.
  unfold bind at 1.
  rewrite (iterate_agent_outcome _
             (chunk_records (fresh_response_id C) (time_time C)
                (model request))).
  2:{ intros [| c text] [s t]; simpl; [ | reflexivity].
      unfold ret. now rewrite app_nil_r. }
  rewrite Hout. cbn [fst snd store trace].
  unfold bind, logger_error, yield, emit. cbn [store trace].
  rewrite <- !app_assoc. reflexivity.
Qed.

(** A run of the [try] block of [generate_openai_stream] that returns made
    every call below, in this order, and every call returned normally. *)
Lemma generate_openai_stream_try_returns (request : OpenAIChatRequest)
  (user_message session_id : string) (user_id : option string)
  (w w' : World Store) :
  generate_openai_stream_try C request user_message user_id session_id w
  = (w', inr tt) ->
  exists s1 rows s2 s3 run,
    let deps :=
      {| deps_session_id := session_id; deps_user_id := user_id |} in
    let prompt := build_full_prompt user_message (turns_of rows) in
    let user_md := [("user_id", opt_str user_id)] in
    get_session_messages C (store w) session_id 10 = (s1, inr rows)
    /\ add_message C s1 session_id "user" user_message user_md
       = (s2, inr tt)
    /\ rag_agent_iter C s2 prompt deps = (s3, inr run)
    /\ trace w'
       = (trace w
          ++ [GetSessionMessages session_id 10;
              AddMessage session_id "user" user_message user_md;
              AgentIterCall prompt deps]
          ++ flat_map
               (chunk_records (fresh_response_id C) (time_time C)
                  (model request))
               (streamed_texts run)
          ++ [AddMessage session_id "assistant"
                (concat_all (streamed_texts run))
                [("streamed", VBool true)];
              Yield (Chunk (openai_chunk (fresh_response_id C)
                              (time_time C) (model request)
                              {| delta_content := None |} (Some "stop")));
              Yield Done])%list.
Proof.
  unfold generate_openai_stream_try, get_conversation_context,
    call_get_session_messages, call_add_message, call_agent_iter.
  unfold bind at 1. unfold bind at 1. unfold calling at 1.
  cbn [store trace].
  destruct (get_session_messages C (store w) session_id 10)
    as [s1 [e | rows]] eqn:E1; [unfold ret; discriminate | ].
  unfold ret at 1. fold (turns_of rows).
  unfold bind at 1. unfold calling at 1. cbn [store trace].
  destruct (add_message C s1 session_id "user" user_message _)
    as [s2 [e | []]] eqn:E2; [discriminate | ].
  unfold bind at 1. unfold calling at 1. cbn [store trace].
  destruct (rag_agent_iter C s2 _ _) as [s3 [e | run]] eqn:E3;
    [discriminate | ].
  unfold bind at 1.
  match goal with
  | |- context [iterate_agent ?f run ?w0] =>
      destruct (iterate_agent f run w0) as [w4 [e | full]] eqn:Eiter;
        [discriminate | ]
  end.
  apply iterate_agent_openai_returns in Eiter. destruct Eiter as [-> ->].
  unfold bind, ret, calling, yield, emit. cbn [store trace].
  destruct (add_message C s3 session_id "assistant" _ _)
    as [s4 [e | []]] eqn:E4; [discriminate | ].
  intros H. inversion H; subst; clear H.
  exists s1, rows, s2, s3, run. cbn zeta. cbn [store trace].
  repeat split; try assumption. rewrite <- !app_assoc. reflexivity.
Qed.

(** X18.  The two stream formats carry the same text: when the native
    stream and the compatibility stream of the same question, user and
    session both complete from the same state, the concatenation of the
    text records of the first is the concatenation of the chunk deltas of
    the second. *)
Theorem stream_formats_carry_same_text :
  forall (request : ChatRequest) (openai_request : OpenAIChatRequest)
    (session_id : string) (w w1 w2 : World Store),
    generate_stream_try C request session_id w = (w1, inr tt) ->
    generate_openai_stream_try C openai_request (message request)
      (user_id request) session_id w
    = (w2, inr tt) ->
    concat_all (text_deltas (yielded (since w w1)))
    = concat_all (chunk_deltas (yielded (since w w2))).
Proof.
  intros request openai_request session_id w w1 w2 Hnative Hcompat.
  apply generate_stream_try_returns in Hnative.
  destruct Hnative as (s1 & rows & s2 & s3 & run & Hnative).
  cbn zeta in Hnative. destruct Hnative as (Hrows & Huser & Hiter & _ & Ht).
  apply generate_openai_stream_try_returns in Hcompat.
  destruct Hcompat as (s1' & rows' & s2' & s3' & run' & Hcompat).
  cbn zeta in Hcompat.
  destruct Hcompat as (Hrows' & Huser' & Hiter' & Ht').
  rewrite Hrows in Hrows'. inversion Hrows'; subst s1' rows'.
  rewrite Huser in Huser'. inversion Huser'; subst s2'.
  rewrite Hiter in Hiter'. inversion Hiter'; subst s3' run'.
  rewrite (since_app _ _ _ Ht), (since_app _ _ _ Ht').
  rewrite !yielded_app, !text_deltas_app, !chunk_deltas_app, !concat_all_app.
  rewrite text_deltas_text_records, text_deltas_tools_records,
    chunk_deltas_chunk_records.
  cbn [yielded text_deltas chunk_deltas flat_map app concat_all fold_right
       String.append].
  now rewrite !append_empty_r.
Qed.

End InterruptedStreams.

Section ToolCallBounds.

Variable loads : string -> option Json.

Lemma tool_calls_of_parts_kept (ps : list Part) :
  Forall2 (records loads)
    (filter
       (fun part =>
          match decode_args loads part with
          | JObj _ => true
          | _ => false
          end)
       (filter is_tool_call_part ps))
    (tool_calls_of_parts loads ps).
Proof.
  induction ps as [| part rest IH]; simpl; [constructor | ].
  destruct (is_tool_call_part part); [ | exact IH].
  simpl. unfold tool_call_of_part.
  destruct (decode_args loads part) as [| | | | | fields] eqn:E; simpl;
    try exact IH.
  constructor; [ | exact IH].
  repeat split; simpl; auto.
  intros Hfail. apply decode_fails_empty in Hfail.
  rewrite Hfail in E. now inversion E.
Qed.

Lemma filter_length_le {A : Type} (keep : A -> bool) (l : list A) :
  List.length (filter keep l) <= List.length l.
Proof.
  induction l as [| x l IH]; simpl; [lia | ].
  destruct (keep x); simpl; lia.
Qed.

(** X19.  The tracker returns a record for exactly those tool calls whose
    arguments end up as a mapping, in invocation order, so never more
    records than tool calls; parts that are not tool calls leave no
    record, and a trace that cannot be read gives the empty list. *)
Theorem tracker_records_the_calls_with_mapping_arguments :
  forall result : AgentRunResult,
    match all_messages result with
    | inl _ => extract_tool_calls loads result = []
    | inr msgs =>
        Forall2 (records loads) (kept_parts loads msgs)
          (extract_tool_calls loads result)
        /\ List.length (extract_tool_calls loads result)
           <= List.length (tool_call_parts msgs)
    end.
Proof.
  intros result. unfold extract_tool_calls.
  destruct (all_messages result) as [e | msgs]; [reflexivity | ].
  assert (H : Forall2 (records loads) (kept_parts loads msgs)
                (flat_map
                   (fun msg =>
                      match parts msg with
                      | Some ps => tool_calls_of_parts loads ps
                      | None => []
                      end)
                   msgs)).
  { unfold kept_parts, tool_call_parts.
    induction msgs as [| msg rest IH]; simpl; [constructor | ].
    rewrite filter_app. apply Forall2_app; [ | exact IH].
    destruct (parts msg) as [ps | ]; [ | constructor].
    apply tool_calls_of_parts_kept. }
  split; [exact H | ].
  rewrite <- (Forall2_length H). apply filter_length_le.
Qed.

End ToolCallBounds.

Lemma completed_native_stream_records_witness :
  yielded
    (since Script.fresh
       (fst (generate_stream (Script.collaborators Script.happy)
               (Script.native_request "q") "session-1" Script.fresh)))
  = native_records "session-1" ["4"; "2"] (snd Script.answer_42_returned).
Proof.
  destruct (completed_native_stream_records
              (Script.collaborators Script.happy)
              (Script.native_request "q") "session-1" Script.fresh
              (fst (generate_stream_try (Script.collaborators Script.happy)
                      (Script.native_request "q") "session-1"
                      Script.fresh))
              eq_refl)
    as (s & s' & rows & run & Hrows & Hiter & Hrecords).
  inversion Hiter; subst run. exact Hrecords.
Defined.

Lemma interrupted_native_stream_witness :
  yielded
    (trace (fst (generate_stream
                   (Script.collaborators Cases.breaks_mid_stream)
                   (Script.native_request "q") "session-1" Script.fresh)))
  = [Native (SessionEvent "session-1");
     Native (TextEvent "Let me "); Native (TextEvent "check.");
     Native (TextEvent "The ans");
     Native (ErrorEvent "Stream error: connection reset")].
Proof.
  rewrite (interrupted_native_stream
             (Script.collaborators Cases.breaks_mid_stream)
             (Script.native_request "q") "session-1" Script.fresh
             0 1 1 [] Cases.interrupted
             ["Let me "; "check."; "The ans"]
             (Exception "connection reset")
             eq_refl eq_refl eq_refl eq_refl).
  reflexivity.
Defined.

Lemma interrupted_compatibility_stream_witness :
  yielded
    (trace (fst (generate_openai_stream
                   (Script.collaborators Cases.breaks_mid_stream)
                   (Script.ask "q" true) "q" (Some "alice") "session-1"
                   Script.fresh)))
  = [Chunk (openai_chunk "chatcmpl-0a1b2c3d" 1700000000 "gpt-4o-mini"
              {| delta_content := Some "Let me " |} None);
     Chunk (openai_chunk "chatcmpl-0a1b2c3d" 1700000000 "gpt-4o-mini"
              {| delta_content := Some "check." |} None);
     Chunk (openai_chunk "chatcmpl-0a1b2c3d" 1700000000 "gpt-4o-mini"
              {| delta_content := Some "The ans" |} None);
     Chunk (openai_chunk "chatcmpl-4e5f6a7b" 1700000002 "gpt-4o-mini"
              {| delta_content := Some "Error: connection reset" |}
              (Some "stop"));
     Done]
  /\ writes
       (trace (fst (generate_openai_stream
                      (Script.collaborators Cases.breaks_mid_stream)
                      (Script.ask "q" true) "q" (Some "alice") "session-1"
                      Script.fresh)))
     = [AddMessage "session-1" "user" "q" [("user_id", VStr "alice")]].
Proof.
  rewrite (interrupted_compatibility_stream
             (Script.collaborators Cases.breaks_mid_stream)
             (Script.ask "q" true) "q" "session-1" (Some "alice")
             Script.fresh 0 1 1 [] Cases.interrupted
             ["Let me "; "check."; "The ans"]
             (Exception "connection reset")
             eq_refl eq_refl eq_refl eq_refl).
  split; reflexivity.
Defined.

Lemma stream_formats_carry_same_text_witness :
  concat_all
    (text_deltas
       (yielded
          (since Script.fresh
             (fst (generate_stream_try (Script.collaborators Script.happy)
                     (Script.native_request "q") "session-1"
                     Script.fresh)))))
  = concat_all
      (chunk_deltas
         (yielded
            (since Script.fresh
               (fst (generate_openai_stream_try
                       (Script.collaborators Script.happy)
                       (Script.ask "q" true) "q" (Some "alice")
                       "session-1" Script.fresh))))).
Proof.
  exact (stream_formats_carry_same_text
           (Script.collaborators Script.happy) (Script.native_request "q")
           (Script.ask "q" true) "session-1" Script.fresh _ _
           eq_refl eq_refl).
Defined.
